(** * rayserve_deployments/llm_serve.py: the model adapter and its service

    A shallow embedding of [LLMModel] (lazy model loading and the batch
    inference loop) and of [LLMService] (reconfiguration and the batched
    entry point), followed by the properties of the batching/dispatch
    description that concern this code.

    Python values are the JSON-like part of [Any]; dictionaries are finite
    maps keyed by strings.  The llama_cpp runtime, the process environment
    and the builtin [int] are parameters gathered in the class [Runtime].
    Statements that touch the outside world are run in a state-and-exception
    monad whose state records every external call that was made. *)

From Stdlib Require Import ZArith Lia Floats.PrimFloat.
From stdpp Require Import base option strings list gmap pretty.

#[local] Set Warnings "-register-all,-inexact-float".
#[local] Open Scope Z_scope.

(* ===================================================================== *)
(** ** Python values *)
(* ===================================================================== *)

Module Py.

(** The values a request body, a model response or a result may hold:
    [None], [bool], [int], [float] (binary64, as in CPython), [str], [list]
    and [dict] with [str] keys.  The messages of the builtin exceptions
    below are those of CPython 3.11. *)
Inductive PyVal :=
| PyNone
| PyBool (b : bool)
| PyInt (z : Z)
| PyFloat (f : float)
| PyStr (s : string)
| PyList (l : list PyVal)
| PyDict (d : gmap string PyVal).

(** [Dict[str, Any]] *)
Abbreviation Dict := (gmap string PyVal).

(** A raised exception: whether its class derives from [Exception], which
    is what [except Exception] tests, the class name, and what [str(e)]
    returns.  [KeyboardInterrupt], [SystemExit] and [asyncio.CancelledError]
    derive from [BaseException] only. *)
Record exn := BaseException {
  is_Exception : bool;
  exc_type : string;
  exc_str : string;
}.

(** An instance of [Exception] or of one of its subclasses. *)
Definition Exception (cls msg : string) : exn := BaseException true cls msg.

(** [KeyboardInterrupt()] *)
Definition KeyboardInterrupt : exn := BaseException false "KeyboardInterrupt" "".

(** What evaluating an expression gives: a value or a raised exception. *)
Inductive outcome (A : Type) :=
| Returned (a : A)
| Raised (e : exn).
Arguments Returned {A} a.
Arguments Raised {A} e.

Definition TypeError (msg : string) : exn := Exception "TypeError" msg.
Definition AttributeError (msg : string) : exn := Exception "AttributeError" msg.
Definition IndexError (msg : string) : exn := Exception "IndexError" msg.
(** [str(KeyError(k))] is [repr(k)], which the caller supplies. *)
Definition KeyError (repr_key : string) : exn := Exception "KeyError" repr_key.

(** [type(v).__name__] *)
Definition type_name (v : PyVal) : string :=
  match v with
  | PyNone => "NoneType"
  | PyBool _ => "bool"
  | PyInt _ => "int"
  | PyFloat _ => "float"
  | PyStr _ => "str"
  | PyList _ => "list"
  | PyDict _ => "dict"
  end.

(** [bool(v)], the truth value tested by [if v] and [not v]. *)
Definition truthy (v : PyVal) : bool :=
  match v with
  | PyNone => false
  | PyBool b => b
  | PyInt z => negb (z =? 0)
  | PyFloat f => negb (f =? 0)%float
  | PyStr s => negb (String.eqb s "")
  | PyList l => negb (Nat.eqb (length l) 0)
  | PyDict d => negb (Nat.eqb (size d) 0)
  end.

(** [len(v)]: defined on [str], [list] and [dict], a [TypeError] elsewhere. *)
Definition len (v : PyVal) : outcome nat :=
  match v with
  | PyStr s => Returned (String.length s)
  | PyList l => Returned (length l)
  | PyDict d => Returned (size d)
  | _ => Raised (TypeError ("object of type '" +:+ type_name v +:+ "' has no len()"))
  end.

(** [d.get(k, dflt)] on a value known to be a [dict]. *)
Definition dict_get (d : Dict) (k : string) (dflt : PyVal) : PyVal :=
  default dflt (d !! k).

(** [v.get(k, dflt)] on an arbitrary value: only a [dict] has the method. *)
Definition get (v : PyVal) (k : string) (dflt : PyVal) : outcome PyVal :=
  match v with
  | PyDict d => Returned (dict_get d k dflt)
  | _ => Raised (AttributeError ("'" +:+ type_name v +:+ "' object has no attribute 'get'"))
  end.

(** [v[k]] for a [str] key [k].  The key literals of this program contain
    no quote, so [repr(k)] is [k] between single quotes. *)
Definition getitem_str (v : PyVal) (k : string) : outcome PyVal :=
  match v with
  | PyDict d =>
      match d !! k with
      | Some x => Returned x
      | None => Raised (KeyError ("'" +:+ k +:+ "'"))
      end
  | PyList _ => Raised (TypeError "list indices must be integers or slices, not str")
  | PyStr _ => Raised (TypeError "string indices must be integers, not 'str'")
  | _ => Raised (TypeError ("'" +:+ type_name v +:+ "' object is not subscriptable"))
  end.

(** A sequence index: negative indices count from the end. *)
Definition index_in (n : nat) (i : Z) : option nat :=
  let j := if i <? 0 then i + Z.of_nat n else i in
  if (0 <=? j) && (j <? Z.of_nat n) then Some (Z.to_nat j) else None.

(** [v[i]] for an [int] index [i]. *)
Definition getitem_int (v : PyVal) (i : Z) : outcome PyVal :=
  match v with
  | PyList l =>
      match index_in (length l) i ≫= (l !!.) with
      | Some x => Returned x
      | None => Raised (IndexError "list index out of range")
      end
  | PyStr s =>
      match index_in (String.length s) i ≫= (λ n, String.get n s) with
      | Some c => Returned (PyStr (String c EmptyString))
      | None => Raised (IndexError "string index out of range")
      end
  | PyDict d => Raised (KeyError (pretty i))
  | _ => Raised (TypeError ("'" +:+ type_name v +:+ "' object is not subscriptable"))
  end.

(** [f.name] for a function, or a method bound to it, whose own attributes
    are [attrs]. *)
Definition function_getattr {A} (attrs : gmap string A) (name : string) : outcome A :=
  match attrs !! name with
  | Some a => Returned a
  | None => Raised (AttributeError ("'function' object has no attribute '" +:+ name +:+ "'"))
  end.

(** Values on which [len] is defined. *)
Definition sized (v : PyVal) : bool :=
  match v with
  | PyStr _ | PyList _ | PyDict _ => true
  | _ => false
  end.

End Py.
Import Py.

(* ===================================================================== *)
(** ** State and exceptions *)
(* ===================================================================== *)

(** A computation over a state [S] that returns a value or raises. *)
Definition M (S A : Type) : Type := S → S * outcome A.

#[export] Instance M_ret {S} : MRet (M S) := λ A a s, (s, Returned a).
#[export] Instance M_bind {S} : MBind (M S) := λ A B k c s,
  match c s with
  | (s', Returned a) => k a s'
  | (s', Raised e) => (s', Raised e)
  end.

Definition raise {S A} (e : exn) : M S A := λ s, (s, Raised e).

(** A pure step that may raise. *)
Definition lift {S A} (r : outcome A) : M S A := λ s, (s, r).

Definition gets {S A} (f : S → A) : M S A := λ s, (s, Returned (f s)).
Definition modify {S} (f : S → S) : M S unit := λ s, (f s, Returned tt).

(** [try: body  except Exception as e: handler e].  State changes made by
    [body] before it raised are kept; an exception that is no instance of
    [Exception] is not caught. *)
Definition try_except {S A} (body : M S A) (handler : exn → M S A) : M S A := λ s,
  match body s with
  | (s', Raised e) => if is_Exception e then handler e s' else (s', Raised e)
  | r => r
  end.

(** [for x in xs: acc = body x acc], where [body] returns early on
    [continue] and a raised exception leaves the loop. *)
Fixpoint for_each {S A B} (xs : list A) (body : A → B → M S B) (acc : B) : M S B :=
  match xs with
  | [] => mret acc
  | x :: xs' => acc' ← body x acc; for_each xs' body acc'
  end.

(* ===================================================================== *)
(** ** The outside world *)
(* ===================================================================== *)

(** Keyword arguments of [Llama(...)]. *)
Record LlamaArgs := {
  arg_model_path : string;
  arg_n_ctx : Z;
  arg_n_gpu_layers : Z;
  arg_n_threads : Z;
  arg_verbose : bool;
}.

(** Keyword arguments of [Llama.create_chat_completion(...)]. *)
Record ChatArgs := {
  arg_messages : PyVal;
  arg_max_tokens : PyVal;
  arg_temperature : PyVal;
  arg_tools : PyVal;
  arg_tool_choice : PyVal;
  arg_response_format : PyVal;
}.

(** What the program does not define itself.  [World] is whatever state the
    llama_cpp library and the operating system keep; a call may read and
    change it, and may raise. *)
Class Runtime := {
  World : Type;
  (** a loaded [llama_cpp.Llama] object *)
  Llama : Type;
  (** [os.environ.get(name)] *)
  environ_get : World → string → option string;
  (** the builtin [int] applied to a [str] *)
  int_of_str : string → outcome Z;
  (** the constructor [Llama(...)] *)
  Llama_new : LlamaArgs → World → World * outcome Llama;
  (** the method [create_chat_completion(...)] *)
  create_chat_completion : Llama → ChatArgs → World → World * outcome PyVal;
}.

(** One entry per call into llama_cpp, with what the call gave. *)
Inductive Event `{RT : Runtime} :=
| EvLoad (args : LlamaArgs) (r : outcome Llama)
| EvChat (m : Llama) (args : ChatArgs) (r : outcome PyVal).

(** The process: the object [self], the world, and the calls made so far. *)
Record Proc `{RT : Runtime} (O : Type) := mkProc {
  self : O;
  world : World;
  trace : list Event;
}.
Arguments mkProc {_ _} _ _ _.
Arguments self {_ _} _.
Arguments world {_ _} _.
Arguments trace {_ _} _.

Section extern.
Context `{RT : Runtime} {O : Type}.

(** A call into the world, recorded in the trace. *)
Definition extern {A} (f : World → World * outcome A) (ev : outcome A → Event)
  : M (Proc O) A := λ s,
  let '(w, r) := f (world s) in (mkProc (self s) w (trace s ++ [ev r]), r).

(** A read of the world, not recorded. *)
Definition observe {A} (f : World → A) : M (Proc O) A := gets (λ s, f (world s)).

Definition set_self (f : O → O) : M (Proc O) unit :=
  modify (λ s, mkProc (f (self s)) (world s) (trace s)).
End extern.

(** Run a computation on a part [P] of [self]. *)
Definition zoom `{RT : Runtime} {O P A} (prj : O → P) (upd : O → P → O)
    (c : M (Proc P) A) : M (Proc O) A := λ s,
  let '(s', r) := c (mkProc (prj (self s)) (world s) (trace s)) in
  (mkProc (upd (self s) (self s')) (world s') (trace s'), r).

(* ===================================================================== *)
(** ** class LLMModel *)
(* ===================================================================== *)

(** Logging and [time.time()] only feed log lines and are left out, except
    for the expressions inside the log messages that can raise. *)

Module LLMModel.
Section with_runtime.
Context `{RT : Runtime}.

Record t := mk {
  model_path : string;
  n_ctx : Z;
  n_gpu_layers : Z;
  model : option Llama;
}.

Definition with_model (o : t) (m : option Llama) : t :=
  mk (model_path o) (n_ctx o) (n_gpu_layers o) m.

(** The callers of this file always pass [n_ctx] and [n_gpu_layers]. *)
Definition __init__ (model_path : string) (n_ctx n_gpu_layers : Z) : t :=
  mk model_path n_ctx n_gpu_layers None.

Definition start : M (Proc t) unit :=
  o ← gets self;
  match model o with
  | None =>
      threads ← observe (λ w, default "4" (environ_get w "LLAMA_N_THREADS"));
      n_threads ← lift (int_of_str threads);
      let args := {| arg_model_path := model_path o;
                     arg_n_ctx := n_ctx o;
                     arg_n_gpu_layers := n_gpu_layers o;
                     arg_n_threads := n_threads;
                     arg_verbose := false |} in
      m ← extern (Llama_new args) (EvLoad args);
      set_self (λ o, with_model o (Some m))
  | Some _ => mret tt
  end.

(** The three dictionaries the loop appends. *)
Definition empty_messages_result (request_id : PyVal) : Dict :=
  {[ "request_id" := request_id;
     "success" := PyBool false;
     "error" := PyStr "empty_messages";
     "content" := PyNone;
     "tool_calls" := PyNone ]}.

Definition success_result (request_id content tool_calls usage : PyVal) : Dict :=
  {[ "request_id" := request_id;
     "success" := PyBool true;
     "error" := PyNone;
     "content" := content;
     "tool_calls" := tool_calls;
     "usage" := usage ]}.

Definition failure_result (request_id : PyVal) (e : exn) : Dict :=
  {[ "request_id" := request_id;
     "success" := PyBool false;
     "error" := PyStr (exc_str e);
     "content" := PyNone;
     "tool_calls" := PyNone ]}.

(** [self.model.create_chat_completion(...)]: the attribute is looked up
    on whatever [self.model] holds. *)
Definition self_model_create_chat_completion (args : ChatArgs) : M (Proc t) PyVal :=
  o ← gets self;
  match model o with
  | Some m => extern (create_chat_completion m args) (EvChat m args)
  | None =>
      raise (AttributeError "'NoneType' object has no attribute 'create_chat_completion'")
  end.

(** [len(x) if x else 0] *)
Definition len_or_zero (x : PyVal) : outcome nat :=
  if truthy x then len x else Returned 0%nat.

(** The keyword arguments built from one request (lines 42 to 46 and 63
    to 70). *)
Definition chat_args (request : Dict) : ChatArgs :=
  let tools := dict_get request "tools" PyNone in
  {| arg_messages := dict_get request "messages" (PyList []);
     arg_max_tokens := dict_get request "max_tokens" (PyInt 512);
     arg_temperature := dict_get request "temperature" (PyFloat 0.1);
     arg_tools := tools;
     arg_tool_choice := dict_get request "tool_choice" PyNone;
     arg_response_format :=
       if truthy tools then PyDict {[ "type" := PyStr "json_object" ]} else PyNone |}.

(** The body of [for request in requests]. *)
Definition loop_body (request : Dict) (results : list Dict) : M (Proc t) (list Dict) :=
  let request_id := dict_get request "request_id" (PyStr "unknown") in
  let messages := dict_get request "messages" (PyList []) in
  _ ← lift (len messages);
  if negb (truthy messages) then
    mret (results ++ [empty_messages_result request_id])
  else
    try_except
      (response ← self_model_create_chat_completion (chat_args request);
       choices ← lift (getitem_str response "choices");
       choice ← lift (getitem_int choices 0);
       message ← lift (getitem_str choice "message");
       content ← lift (get message "content" PyNone);
       tool_calls ← lift (get message "tool_calls" PyNone);
       _ ← lift (len_or_zero content);
       _ ← lift (len_or_zero tool_calls);
       usage ← lift (get response "usage" (PyDict ∅));
       mret (results ++ [success_result request_id content tool_calls usage]))
      (λ e, mret (results ++ [failure_result request_id e])).

Definition __call__ (requests : list Dict) : M (Proc t) (list Dict) :=
  _ ← start;
  for_each requests loop_body [].

(** The attributes of the function object [__call__] beyond the builtin
    ones.  It is defined by a plain [async def] with no decorator, so
    there is none. *)
Definition __call__attributes {A} : gmap string A := ∅.

End with_runtime.
Arguments t {_}.
End LLMModel.

(* ===================================================================== *)
(** ** class LLMService *)
(* ===================================================================== *)

(** The [serve.deployment] and [serve.batch] decorators belong to Ray
    Serve; what is embedded is the class body. *)

Module LLMService.
Section with_runtime.
Context `{RT : Runtime}.

Record t := mk {
  model : LLMModel.t;
  max_batch_size : PyVal;
  batch_wait_timeout_s : PyVal;
}.

Definition with_model (o : t) (m : LLMModel.t) : t :=
  mk m (max_batch_size o) (batch_wait_timeout_s o).
Definition with_max_batch_size (o : t) (v : PyVal) : t :=
  mk (model o) v (batch_wait_timeout_s o).
Definition with_batch_wait_timeout_s (o : t) (v : PyVal) : t :=
  mk (model o) (max_batch_size o) v.

Definition __init__ (model_path : string) (n_ctx n_gpu_layers : Z) : t :=
  mk (LLMModel.__init__ model_path n_ctx n_gpu_layers) (PyInt 16) (PyFloat 0.05).

Definition reconfigure (user_config : Dict) : M (Proc t) unit :=
  _ ← set_self (λ o, with_max_batch_size o
                        (dict_get user_config "max_batch_size" (PyInt 16)));
  _ ← set_self (λ o, with_batch_wait_timeout_s o
                        (dict_get user_config "batch_wait_timeout_s" (PyFloat 0.05)));
  set_max_batch_size ←
    lift (function_getattr LLMModel.__call__attributes "set_max_batch_size");
  o ← gets self;
  _ ← (set_max_batch_size (max_batch_size o) : M (Proc t) unit);
  set_batch_wait_timeout_s ←
    lift (function_getattr LLMModel.__call__attributes "set_batch_wait_timeout_s");
  o ← gets self;
  set_batch_wait_timeout_s (batch_wait_timeout_s o).

(** [await self.model(requests)] *)
Definition __call__ (requests : list Dict) : M (Proc t) (list Dict) :=
  zoom model with_model (LLMModel.__call__ requests).

End with_runtime.
Arguments t {_}.
End LLMService.

(* ===================================================================== *)
(** ** Concrete runtimes *)
(* ===================================================================== *)

Module Demo.

(** A response in the shape llama_cpp gives. *)
Definition reply : PyVal :=
  PyDict {[ "choices" :=
              PyList [PyDict {[ "message" :=
                PyDict {[ "role" := PyStr "assistant";
                          "content" := PyStr "hello" ]} ]}];
            "usage" := PyDict {[ "total_tokens" := PyInt 7 ]} ]}.

Definition parse_threads (s : string) : outcome Z :=
  if String.eqb s "4" then Returned 4
  else Raised (Exception "ValueError"
                 ("invalid literal for int() with base 10: '" +:+ s +:+ "'")).

(** The world counts the calls made.  Loading succeeds; a completion
    fails when [max_tokens] is not a positive integer. *)
#[export] Instance healthy : Runtime := {|
  World := nat;
  Llama := string;
  environ_get := λ _ _, None;
  int_of_str := parse_threads;
  Llama_new := λ args w, (S w, Returned (arg_model_path args));
  create_chat_completion := λ m args w,
    (S w, match arg_max_tokens args with
          | PyInt z => if 0 <? z then Returned reply
                       else Raised (Exception "ValueError" "max_tokens must be positive")
          | _ => Raised (TypeError "max_tokens must be an integer")
          end);
|}.

(** A runtime whose model file cannot be loaded. *)
Definition load_error (args : LlamaArgs) : exn :=
  Exception "ValueError" ("Failed to load model from file: " +:+ arg_model_path args).

Definition broken : Runtime := {|
  World := nat;
  Llama := string;
  environ_get := λ _ _, None;
  int_of_str := parse_threads;
  Llama_new := λ args w, (S w, Raised (load_error args));
  create_chat_completion := λ m args w, (S w, Returned reply);
|}.

Definition message (text : string) : PyVal :=
  PyDict {[ "role" := PyStr "user"; "content" := PyStr text ]}.

(** Requests: complete, with only messages, with no messages, failing. *)
Definition req_a : Dict :=
  {[ "request_id" := PyStr "a";
     "messages" := PyList [message "hi"];
     "max_tokens" := PyInt 64;
     "temperature" := PyFloat 0.5;
     "tools" := PyList [PyDict {[ "type" := PyStr "function" ]}];
     "tool_choice" := PyStr "auto" ]}.
Definition req_bare : Dict := {[ "messages" := PyList [message "hi"] ]}.
Definition req_empty : Dict :=
  {[ "request_id" := PyStr "b"; "messages" := PyList []; "max_tokens" := PyInt 64 ]}.
Definition req_fail : Dict :=
  {[ "request_id" := PyStr "c";
     "messages" := PyList [message "hi"];
     "max_tokens" := PyInt 0 ]}.
(** Not a request of the data model: [messages] is not a sequence. *)
Definition req_untyped : Dict :=
  {[ "request_id" := PyStr "d"; "messages" := PyNone ]}.

Definition batch : list Dict := [req_a; req_empty; req_fail; req_bare].

Definition fresh `{RT : Runtime} (w : World) : Proc LLMModel.t :=
  mkProc (LLMModel.__init__ "/models/m.gguf" 8192 0) w [].

(** The healthy process before and after its model was loaded. *)
Definition unloaded : Proc (RT:=healthy) LLMModel.t := fresh (0%nat : @World healthy).
Definition loaded : Proc (RT:=healthy) LLMModel.t := (LLMModel.start unloaded).1.

Definition fresh_service `{RT : Runtime} (w : World) : Proc LLMService.t :=
  mkProc (LLMService.__init__ "/models/m.gguf" 8192 0) w [].

(** A new service on the healthy runtime and one on the broken runtime. *)
Definition service : Proc (RT:=healthy) LLMService.t :=
  fresh_service (0%nat : @World healthy).
Definition broken_service : Proc (RT:=broken) (@LLMService.t broken) :=
  fresh_service (0%nat : @World broken).

(** The parts of [reply]. *)
Definition reply_message : Dict :=
  {[ "role" := PyStr "assistant"; "content" := PyStr "hello" ]}.
Definition reply_choice : Dict := {[ "message" := PyDict reply_message ]}.
Definition reply_fields : Dict :=
  {[ "choices" := PyList [PyDict reply_choice];
     "usage" := PyDict {[ "total_tokens" := PyInt 7 ]} ]}.

(** A runtime whose completions always give [response]. *)
Definition replying (response : PyVal) : Runtime := {|
  World := nat;
  Llama := string;
  environ_get := λ _ _, None;
  int_of_str := parse_threads;
  Llama_new := λ args w, (S w, Returned (arg_model_path args));
  create_chat_completion := λ m args w, (S w, Returned response);
|}.

(** The process of such a runtime, once its model is loaded. *)
Definition loaded_replying (response : PyVal)
    : @Proc (replying response) (@LLMModel.t (replying response)) :=
  (LLMModel.start (fresh (RT:=replying response) (0%nat : @World (replying response)))).1.

(** A response whose content is a number. *)
Definition odd_message : Dict := {[ "role" := PyStr "assistant"; "content" := PyInt 5 ]}.
Definition odd_choice : Dict := {[ "message" := PyDict odd_message ]}.
Definition odd_fields : Dict := {[ "choices" := PyList [PyDict odd_choice] ]}.

(** The runtimes that answer with [reply], with the odd response and with
    an empty dictionary, and their processes with a loaded model. *)
Definition plain : Runtime := replying (PyDict reply_fields).
Definition odd : Runtime := replying (PyDict odd_fields).
Definition garbled : Runtime := replying (PyDict ∅).
Definition loaded_plain : @Proc plain (@LLMModel.t plain) :=
  loaded_replying (PyDict reply_fields).
Definition loaded_odd : @Proc odd (@LLMModel.t odd) :=
  loaded_replying (PyDict odd_fields).
Definition loaded_garbled : @Proc garbled (@LLMModel.t garbled) :=
  loaded_replying (PyDict ∅).

(** A runtime in which the process is interrupted during the completion
    of a request with [max_tokens=0]. *)
Definition interrupted : Runtime := {|
  World := nat;
  Llama := string;
  environ_get := λ _ _, None;
  int_of_str := parse_threads;
  Llama_new := λ args w, (S w, Returned (arg_model_path args));
  create_chat_completion := λ m args w,
    (S w, match arg_max_tokens args with
          | PyInt 0 => Raised KeyboardInterrupt
          | _ => Returned reply
          end);
|}.

Definition interrupted_process : @Proc interrupted (@LLMModel.t interrupted) :=
  fresh (RT:=interrupted) (0%nat : @World interrupted).

(** A runtime whose thread-count setting is not a number. *)
Definition misset : Runtime := {|
  World := nat;
  Llama := string;
  environ_get := λ _ name,
    if String.eqb name "LLAMA_N_THREADS" then Some "many" else None;
  int_of_str := parse_threads;
  Llama_new := λ args w, (S w, Returned (arg_model_path args));
  create_chat_completion := λ m args w, (S w, Returned reply);
|}.

Definition misset_process : @Proc misset (@LLMModel.t misset) :=
  fresh (RT:=misset) (0%nat : @World misset).

Definition broken_process : @Proc broken (@LLMModel.t broken) :=
  fresh (RT:=broken) (0%nat : @World broken).

End Demo.

(* ===================================================================== *)
(** ** Vocabulary of the properties *)
(* ===================================================================== *)

Section vocabulary.
Context `{RT : Runtime}.

(** What the loop reads from a request for its id and its messages. *)
Definition request_id_of (request : Dict) : PyVal :=
  dict_get request "request_id" (PyStr "unknown").
Definition messages_of (request : Dict) : PyVal :=
  dict_get request "messages" (PyList []).

(** The completions of the runtime raise instances of [Exception] only:
    whatever a completion raises, [except Exception] catches. *)
Definition completions_raise_Exception : Prop :=
  ∀ m args w w' e,
    create_chat_completion m args w = (w', Raised e) → is_Exception e = true.

(** The request follows the data model: its messages, when given, are a
    sequence (a value with a length). *)
Definition has_sequence_messages (request : Dict) : Prop :=
  sized (messages_of request) = true.

(** One turn of the loop on [request], from [s] to [s'], appends [res]. *)
Definition produces (request : Dict) (s : Proc LLMModel.t) (res : Dict)
    (s' : Proc LLMModel.t) : Prop :=
  LLMModel.loop_body request [] s = (s', Returned [res]).

(** The turns of the loop over a batch, chained in order. *)
Inductive batch_run :
  list Dict → Proc LLMModel.t → list Dict → Proc LLMModel.t → Prop :=
| batch_done s : batch_run [] s [] s
| batch_turn request requests s res s1 results s2 :
    produces request s res s1 →
    batch_run requests s1 results s2 →
    batch_run (request :: requests) s (res :: results) s2.

(** In the run of [requests] from [s1] to [s2] with [results], position
    [i] holds [request], served from [sa] to [sb] with result [res]: the
    requests before it were served first, the ones after it afterwards. *)
Definition served_at (requests : list Dict) (s1 : Proc LLMModel.t)
    (results : list Dict) (s2 : Proc LLMModel.t) (i : nat)
    (request : Dict) (sa : Proc LLMModel.t) (res : Dict) (sb : Proc LLMModel.t) : Prop :=
  requests !! i = Some request ∧
  results !! i = Some res ∧
  batch_run (take i requests) s1 (take i results) sa ∧
  produces request sa res sb ∧
  batch_run (drop (S i) requests) sb (drop (S i) results) s2.

(** The invariant of a Result. *)
Definition result_invariant (res : Dict) : Prop :=
  (res !! "success" = Some (PyBool true) → res !! "error" = Some PyNone) ∧
  (res !! "success" = Some (PyBool false) →
     res !! "content" = Some PyNone ∧ res !! "tool_calls" = Some PyNone).

Definition is_load_success (ev : Event) : bool :=
  match ev with EvLoad _ (Returned _) => true | _ => false end.
Definition is_chat (ev : Event) : bool :=
  match ev with EvChat _ _ _ => true | _ => false end.

(** How many times a model was loaded in a trace. *)
Definition successful_loads (tr : list Event) : nat :=
  length (List.filter is_load_success tr).
(** How many completions were requested in a trace. *)
Definition chat_count (tr : list Event) : nat :=
  length (List.filter is_chat tr).

Definition is_load (ev : Event) : bool :=
  match ev with EvLoad _ _ => true | _ => false end.
(** How many times a load was attempted in a trace. *)
Definition load_attempts (tr : list Event) : nat :=
  length (List.filter is_load tr).

(** Every load of the trace was asked with the given parameters. *)
Definition loads_use (path : string) (ctx gpu : Z) (tr : list Event) : Prop :=
  ∀ args r, EvLoad args r ∈ tr →
    arg_model_path args = path ∧ arg_n_ctx args = ctx ∧ arg_n_gpu_layers args = gpu.

(** The arguments [start] passes to [Llama(...)], and the text it reads
    the thread count from. *)
Definition load_args (o : LLMModel.t) (n_threads : Z) : LlamaArgs :=
  {| arg_model_path := LLMModel.model_path o;
     arg_n_ctx := LLMModel.n_ctx o;
     arg_n_gpu_layers := LLMModel.n_gpu_layers o;
     arg_n_threads := n_threads;
     arg_verbose := false |}.

Definition threads_setting (w : World) : string :=
  default "4" (environ_get w "LLAMA_N_THREADS").

(** The object keeps its construction parameters, loads were asked with
    them, and a model is held exactly when one load succeeded. *)
Definition loaded_once (path : string) (ctx gpu : Z) (s : Proc LLMModel.t) : Prop :=
  LLMModel.model_path (self s) = path ∧
  LLMModel.n_ctx (self s) = ctx ∧
  LLMModel.n_gpu_layers (self s) = gpu ∧
  loads_use path ctx gpu (trace s) ∧
  successful_loads (trace s) =
    match LLMModel.model (self s) with Some _ => 1%nat | None => 0%nat end.

(** The process as the model object of a service sees it. *)
Definition model_view (s : Proc LLMService.t) : Proc LLMModel.t :=
  mkProc (LLMService.model (self s)) (world s) (trace s).

(** What a client of the object may do with it. *)
Inductive op :=
| OpStart
| OpCall (requests : list Dict).

Definition run_op (o : op) (s : Proc LLMModel.t) : Proc LLMModel.t :=
  match o with
  | OpStart => (LLMModel.start s).1
  | OpCall requests => (LLMModel.__call__ requests s).1
  end.

Definition run_ops (ops : list op) (s : Proc LLMModel.t) : Proc LLMModel.t :=
  foldl (λ s o, run_op o s) s ops.

(** The requests of a batch for which the model is asked. *)
Definition with_messages (requests : list Dict) : list Dict :=
  List.filter (λ request, truthy (messages_of request)) requests.

(** The arguments of the completions requested in a trace, in order. *)
Definition chat_arguments (tr : list Event) : list ChatArgs :=
  omap (λ ev, match ev with EvChat _ args _ => Some args | _ => None end) tr.

(** The events are completions asked of the model [m]. *)
Definition chats_of (m : Llama) (evs : list Event) : Prop :=
  Forall (λ ev, ∃ args out, ev = EvChat m args out) evs.

End vocabulary.

(** Unfold one turn of the loop down to the calls into the world. *)
Ltac unfold_body :=
  unfold produces, LLMModel.loop_body, LLMModel.self_model_create_chat_completion,
    LLMModel.len_or_zero, try_except, extern, observe, set_self, lift, gets,
    modify, raise, mbind, M_bind, mret, M_ret in *;
  cbn [self world trace fst snd] in *.

(* ===================================================================== *)
(** ** The builtins *)
(* ===================================================================== *)

(** What the builtins raise are instances of [Exception]. *)
Lemma len_raises v e : len v = Raised e → is_Exception e = true.
Proof. destruct v; intros [= <-]; reflexivity. Qed.

Lemma get_raises v k dflt e : get v k dflt = Raised e → is_Exception e = true.
Proof. destruct v; intros [= <-]; reflexivity. Qed.

Lemma getitem_str_raises v k e : getitem_str v k = Raised e → is_Exception e = true.
Proof.
  destruct v as [| | | | | |d]; try (intros [= <-]; reflexivity).
  cbn. destruct (d !! k); intros [= <-]. reflexivity.
Qed.

Lemma getitem_int_raises v i e : getitem_int v i = Raised e → is_Exception e = true.
Proof.
  destruct v as [| | | |text|l|d]; try (intros [= <-]; reflexivity).
  - cbn. destruct (index_in _ _ ≫= _); intros [= <-]. reflexivity.
  - cbn. destruct (index_in _ _ ≫= _); intros [= <-]. reflexivity.
Qed.

(** Close a case in which an exception is said to be no instance of
    [Exception], although a builtin raised it or the runtime, under the
    hypothesis [Hrt] that it raises none. *)
Ltac uncaught_is_absurd Hrt :=
  match goal with
  | H : is_Exception ?e = false |- _ =>
      first
        [ discriminate H
        | match goal with
          | Hr : len _ = Raised e |- _ => rewrite (len_raises _ _ Hr) in H
          | Hr : get _ _ _ = Raised e |- _ => rewrite (get_raises _ _ _ _ Hr) in H
          | Hr : getitem_str _ _ = Raised e |- _ =>
              rewrite (getitem_str_raises _ _ _ Hr) in H
          | Hr : getitem_int _ _ = Raised e |- _ =>
              rewrite (getitem_int_raises _ _ _ Hr) in H
          | Hr : create_chat_completion _ _ _ = (_, Raised e) |- _ =>
              rewrite (Hrt _ _ _ _ _ Hr) in H
          end; discriminate H ]
  end.

(* ===================================================================== *)
(** ** The loop body *)
(* ===================================================================== *)

Section loop_body_facts.
Context `{RT : Runtime}.
Implicit Types (request : Dict) (s : Proc LLMModel.t) (acc results : list Dict).

(** The accumulator is only ever extended. *)
Lemma loop_body_acc request acc s :
  LLMModel.loop_body request acc s =
    match LLMModel.loop_body request [] s with
    | (s', Returned l) => (s', Returned (acc ++ l))
    | (s', Raised e) => (s', Raised e)
    end.
Proof.
  unfold_body. repeat case_match; simplify_eq; first [reflexivity | congruence].
Qed.

(** A request whose messages have no length stops the loop. *)
Lemma loop_body_untyped request acc s e :
  len (messages_of request) = Raised e →
  LLMModel.loop_body request acc s = (s, Raised e).
Proof.
  unfold messages_of. intros Hlen. unfold_body. rewrite Hlen. reflexivity.
Qed.

Lemma sized_len v : sized v = true → ∃ n, len v = Returned n.
Proof. destruct v; try discriminate; eauto. Qed.

Lemma get_Returned v k dflt x :
  get v k dflt = Returned x → ∃ d, v = PyDict d ∧ x = dict_get d k dflt.
Proof. destruct v; try discriminate. intros [= <-]. eauto. Qed.

Lemma len_sized v n : len v = Returned n → sized v = true.
Proof. destruct v; try discriminate; reflexivity. Qed.

(** A request of the data model always gets a result, provided the
    runtime raises nothing that [except Exception] lets through. *)
Lemma produces_total request s :
  completions_raise_Exception →
  has_sequence_messages request → ∃ res s', produces request s res s'.
Proof.
  unfold has_sequence_messages, messages_of.
  intros Hrt [n Hn]%sized_len. unfold_body. rewrite Hn.
  repeat case_match; simplify_eq; eauto; uncaught_is_absurd Hrt.
Qed.

(** The three ways a turn of the loop ends with a result. *)
Lemma produces_inv request s res s' :
  produces request s res s' →
  has_sequence_messages request ∧
  ((truthy (messages_of request) = false ∧
    res = LLMModel.empty_messages_result (request_id_of request) ∧ s' = s)
   ∨ (truthy (messages_of request) = true ∧ LLMModel.model (self s) = None ∧
      s' = s ∧ ∃ e, res = LLMModel.failure_result (request_id_of request) e)
   ∨ (truthy (messages_of request) = true ∧
      ∃ m out,
        LLMModel.model (self s) = Some m ∧
        create_chat_completion m (LLMModel.chat_args request) (world s) = (world s', out) ∧
        s' = mkProc (self s) (world s')
               (trace s ++ [EvChat m (LLMModel.chat_args request) out]) ∧
        match out with
        | Raised e => res = LLMModel.failure_result (request_id_of request) e
        | Returned response =>
            (∃ e, res = LLMModel.failure_result (request_id_of request) e) ∨
            (∃ d content tool_calls,
                response = PyDict d ∧
                res = LLMModel.success_result (request_id_of request) content tool_calls
                        (dict_get d "usage" (PyDict ∅)))
        end)).
Proof.
  unfold has_sequence_messages, messages_of, request_id_of.
  destruct (len (dict_get request "messages" (PyList []))) as [n|e] eqn:Hlen;
    [ apply len_sized in Hlen as Hsized
    | intros Hp; unfold_body; rewrite Hlen in Hp; discriminate ].
  intros Hp. split; [exact Hsized|].
  unfold_body. rewrite Hlen in Hp.
  destruct (truthy (dict_get request "messages" (PyList []))) eqn:Htruthy;
    cbn [negb] in Hp; [| left; by simplify_eq ].
  right.
  destruct (LLMModel.model (self s)) as [m|] eqn:Hmodel;
    [| left; cbv [AttributeError Exception is_Exception] in Hp; simplify_eq; eauto 10 ].
  right. split; [reflexivity|].
  destruct (create_chat_completion m (LLMModel.chat_args request) (world s))
    as [w out] eqn:Hcall.
  exists m, out.
  destruct out as [response|e]; cbn [self world trace] in Hp.
  - assert (s'.(world) = w ∧
            s' = mkProc (self s) w
                   (trace s ++ [EvChat m (LLMModel.chat_args request) (Returned response)]) ∧
            ((∃ e, res = LLMModel.failure_result
                       (dict_get request "request_id" (PyStr "unknown")) e) ∨
             (∃ d content tool_calls,
                response = PyDict d ∧
                res = LLMModel.success_result
                        (dict_get request "request_id" (PyStr "unknown"))
                        content tool_calls (dict_get d "usage" (PyDict ∅)))))
      as (-> & Hs & Hres).
    { repeat case_match; simplify_eq; cbn [world];
        (split; [reflexivity | split; [reflexivity |]]);
        lazymatch goal with
        | H : get response _ _ = Returned _ |- _ =>
            apply get_Returned in H as (d & -> & ->);
            right; exists d; do 2 eexists; split; reflexivity
        | |- _ => left; eexists; reflexivity
        end. }
    by rewrite Hs.
  - destruct (is_Exception e); simplify_eq. cbn [world]. eauto.
Qed.

End loop_body_facts.

Section loop_facts.
Context `{RT : Runtime}.
Implicit Types (request : Dict) (requests : list Dict).
Implicit Types (s : Proc LLMModel.t) (acc results : list Dict).

(** A turn that returns has appended exactly one dictionary. *)
Lemma loop_body_returns request acc s s' out :
  LLMModel.loop_body request acc s = (s', Returned out) →
  ∃ res, out = acc ++ [res] ∧ produces request s res s'.
Proof.
  rewrite loop_body_acc.
  destruct (LLMModel.loop_body request [] s) as [s1 [l|e]] eqn:Hbody; [|discriminate].
  intros [= <- <-].
  assert (∃ res, l = [res]) as [res ->];
    [| exists res; split; [reflexivity | exact Hbody] ].
  clear acc. unfold_body.
  repeat case_match; simplify_eq; eexists; reflexivity.
Qed.

(** A turn does not touch the object, and adds no load to the trace. *)
Lemma produces_self request s res s' :
  produces request s res s' → self s' = self s.
Proof.
  intros (_ & [(_ & _ & ->) | [(_ & _ & -> & _) | (_ & m & out & _ & _ & -> & _)]])%produces_inv;
    reflexivity.
Qed.

Lemma produces_trace request s res s' :
  produces request s res s' →
  trace s' = trace s ∨ ∃ m args out, trace s' = trace s ++ [EvChat m args out].
Proof.
  intros (_ & [(_ & _ & ->) | [(_ & _ & -> & _) | (_ & m & out & _ & _ & -> & _)]])%produces_inv;
    cbn [trace]; eauto.
Qed.

Lemma batch_run_length requests s results s' :
  batch_run requests s results s' → length results = length requests.
Proof. induction 1; cbn; congruence. Qed.

Lemma batch_run_self requests s results s' :
  batch_run requests s results s' → self s' = self s.
Proof.
  induction 1 as [|request requests s res s1 results s2 Hp _ IH]; [reflexivity|].
  rewrite IH. eauto using produces_self.
Qed.

(** Every position of a run was served in its turn. *)
Lemma batch_run_lookup requests s1 results s2 i request :
  batch_run requests s1 results s2 →
  requests !! i = Some request →
  ∃ sa res sb, served_at requests s1 results s2 i request sa res sb.
Proof.
  intros Hrun. revert i.
  induction Hrun as [|r requests s res s1 results s2 Hp Hrun IH]; intros i Hi.
  - discriminate.
  - destruct i as [|i]; cbn in Hi.
    + simplify_eq. exists s, res, s1. unfold served_at. cbn.
      rewrite !drop_0. eauto using batch_done.
    + destruct (IH i Hi) as (sa & res' & sb & Hreq & Hres & Hpre & Hturn & Hpost).
      exists sa, res', sb. unfold served_at. cbn.
      eauto 10 using batch_turn.
Qed.

(** Requests of the data model are all served. *)
Lemma for_each_total requests acc s :
  completions_raise_Exception →
  Forall has_sequence_messages requests →
  ∃ results s',
    for_each requests LLMModel.loop_body acc s = (s', Returned (acc ++ results)) ∧
    batch_run requests s results s'.
Proof.
  intros Hrt Hall. revert acc s.
  induction Hall as [|request requests Hreq _ IH]; intros acc s.
  - exists [], s. cbn. rewrite app_nil_r. eauto using batch_done.
  - destruct (produces_total request s Hrt Hreq) as (res & s1 & Hp).
    destruct (IH (acc ++ [res]) s1) as (results & s2 & Hloop & Hrun).
    exists (res :: results), s2. split; [|eauto using batch_turn].
    cbn [for_each]. unfold mbind, M_bind at 1.
    rewrite loop_body_acc, Hp, Hloop, <- app_assoc. reflexivity.
Qed.

(** A loop that returns has served every request. *)
Lemma for_each_inv requests acc s s' out :
  for_each requests LLMModel.loop_body acc s = (s', Returned out) →
  ∃ results, out = acc ++ results ∧ batch_run requests s results s'.
Proof.
  revert acc s.
  induction requests as [|request requests IH]; intros acc s.
  - cbn. intros [= <- <-]. exists []. rewrite app_nil_r. eauto using batch_done.
  - cbn [for_each]. unfold mbind, M_bind at 1.
    destruct (LLMModel.loop_body request acc s) as [s1 [acc'|e]] eqn:Hbody; [|discriminate].
    apply loop_body_returns in Hbody as (res & -> & Hp).
    intros (results & -> & Hrun)%IH.
    exists (res :: results). rewrite <- app_assoc. eauto using batch_turn.
Qed.

End loop_facts.

(* ===================================================================== *)
(** ** Loading and the whole call *)
(* ===================================================================== *)

Section call_facts.
Context `{RT : Runtime}.
Implicit Types (requests : list Dict) (s : Proc LLMModel.t).

Lemma start_loaded s m :
  LLMModel.model (self s) = Some m → LLMModel.start s = (s, Returned tt).
Proof. intros Hm. unfold LLMModel.start. unfold_body. rewrite Hm. reflexivity. Qed.

(** The ways [start] ends. *)
Lemma start_inv s s' o :
  LLMModel.start s = (s', o) →
  (∃ m, LLMModel.model (self s) = Some m ∧ s' = s ∧ o = Returned tt)
  ∨ (LLMModel.model (self s) = None ∧
     ∃ e, int_of_str (threads_setting (world s)) = Raised e ∧ s' = s ∧ o = Raised e)
  ∨ (LLMModel.model (self s) = None ∧
     ∃ n w r,
       int_of_str (threads_setting (world s)) = Returned n ∧
       Llama_new (load_args (self s) n) (world s) = (w, r) ∧
       let tr := trace s ++ [EvLoad (load_args (self s) n) r] in
       match r with
       | Returned m =>
           s' = mkProc (LLMModel.with_model (self s) (Some m)) w tr ∧ o = Returned tt
       | Raised e => s' = mkProc (self s) w tr ∧ o = Raised e
       end).
Proof.
  unfold LLMModel.start, threads_setting, load_args. intros Hstart. unfold_body.
  destruct (LLMModel.model (self s)) as [m|] eqn:Hm.
  - injection Hstart as <- <-. left. eauto.
  - right.
    destruct (int_of_str _) as [n|e] eqn:Hn.
    + right. split; [reflexivity|].
      destruct (Llama_new _ _) as [w [m|e]] eqn:Hnew; cbn [self world trace] in Hstart;
        injection Hstart as <- <-; exists n, w; eexists; (split; [reflexivity|]);
        (split; [exact Hnew|]); cbn; eauto.
    + injection Hstart as <- <-. left. eauto.
Qed.

Lemma call_unfold requests s :
  LLMModel.__call__ requests s =
    match LLMModel.start s with
    | (s1, Returned _) => for_each requests LLMModel.loop_body [] s1
    | (s1, Raised e) => (s1, Raised e)
    end.
Proof. reflexivity. Qed.

(** Once the model is there, a batch of requests of the data model is
    served to the end. *)
Lemma call_total requests s s1 :
  completions_raise_Exception →
  LLMModel.start s = (s1, Returned tt) →
  Forall has_sequence_messages requests →
  ∃ results s2,
    LLMModel.__call__ requests s = (s2, Returned results) ∧
    batch_run requests s1 results s2.
Proof.
  intros Hrt Hstart Hall. rewrite call_unfold, Hstart.
  destruct (for_each_total requests [] s1 Hrt Hall) as (results & s2 & Hloop & Hrun).
  eauto.
Qed.

Lemma call_inv requests s s2 results :
  LLMModel.__call__ requests s = (s2, Returned results) →
  ∃ s1, LLMModel.start s = (s1, Returned tt) ∧ batch_run requests s1 results s2.
Proof.
  rewrite call_unfold.
  destruct (LLMModel.start s) as [s1 [[]|e]]; [|discriminate].
  intros (results' & -> & Hrun)%for_each_inv. eauto.
Qed.

(** A failed [start] is the outcome of the whole call. *)
Lemma call_start_raised requests s s1 e :
  LLMModel.start s = (s1, Raised e) →
  LLMModel.__call__ requests s = (s1, Raised e).
Proof. intros Hstart. rewrite call_unfold, Hstart. reflexivity. Qed.

End call_facts.

(* ===================================================================== *)
(** ** Facts shared by the properties *)
(* ===================================================================== *)

Section shared_facts.
Context `{RT : Runtime}.
Implicit Types (request : Dict) (requests : list Dict).
Implicit Types (s : Proc LLMModel.t) (results : list Dict).

Lemma start_returns_model s s1 :
  LLMModel.start s = (s1, Returned tt) → ∃ m, LLMModel.model (self s1) = Some m.
Proof.
  intros [(m & Hm & -> & _) | [(_ & e & _ & _ & ?) | (_ & n & w & r & _ & _ & Hr)]]%start_inv;
    [eauto | discriminate |].
  destruct r as [m|e]; cbn in Hr; destruct Hr as [-> ?]; [eauto | discriminate].
Qed.

Lemma served_at_self requests s1 results s2 i request sa res sb :
  served_at requests s1 results s2 i request sa res sb → self sa = self s1.
Proof. intros (_ & _ & Hpre & _). eauto using batch_run_self. Qed.

Lemma served_at_rest requests s1 results s2 i request sa res sb :
  served_at requests s1 results s2 i request sa res sb →
  length (drop (S i) results) = length (drop (S i) requests).
Proof. intros (_ & _ & _ & _ & Hpost). eauto using batch_run_length. Qed.

(** The id of a result is the id read from its request. *)
Lemma produces_request_id request s res s' :
  produces request s res s' → res !! "request_id" = Some (request_id_of request).
Proof.
  intros (_ & [(_ & -> & _) | [(_ & _ & _ & e & ->) | (_ & m & out & _ & _ & _ & Hout)]])%produces_inv;
    [reflexivity | reflexivity |].
  destruct out as [response|e];
    [destruct Hout as [[e ->] | (d & content & tool_calls & _ & ->)] | subst res];
    reflexivity.
Qed.

(** A request with messages, served by a loaded model, is one call of
    [create_chat_completion]. *)
Lemma produces_invokes request s res s' m :
  truthy (messages_of request) = true →
  LLMModel.model (self s) = Some m →
  produces request s res s' →
  ∃ out,
    create_chat_completion m (LLMModel.chat_args request) (world s) = (world s', out) ∧
    trace s' = trace s ++ [EvChat m (LLMModel.chat_args request) out] ∧
    match out with
    | Raised e => res = LLMModel.failure_result (request_id_of request) e
    | Returned response =>
        (∃ e, res = LLMModel.failure_result (request_id_of request) e) ∨
        (∃ d content tool_calls,
            response = PyDict d ∧
            res = LLMModel.success_result (request_id_of request) content tool_calls
                    (dict_get d "usage" (PyDict ∅)))
    end.
Proof.
  intros Htruthy Hm
    (_ & [(? & _) | [(_ & ? & _) | (_ & m' & out & Hm' & Hcall & -> & Hout)]])%produces_inv;
    [congruence | congruence |].
  assert (m' = m) as -> by congruence.
  exists out. cbn [world trace] in *. eauto.
Qed.

(** A request without messages is answered on the spot. *)
Lemma produces_empty request s res s' :
  truthy (messages_of request) = false →
  produces request s res s' →
  res = LLMModel.empty_messages_result (request_id_of request) ∧ s' = s.
Proof.
  intros Htruthy
    (_ & [(_ & -> & ->) | [(? & _) | (? & _)]])%produces_inv; [eauto | congruence..].
Qed.

(** The whole call, position by position. *)
Lemma call_served requests s s1 :
  completions_raise_Exception →
  LLMModel.start s = (s1, Returned tt) →
  Forall has_sequence_messages requests →
  ∃ results s2,
    LLMModel.__call__ requests s = (s2, Returned results) ∧
    length results = length requests ∧
    ∀ i request, requests !! i = Some request →
      ∃ sa res sb, served_at requests s1 results s2 i request sa res sb.
Proof.
  intros Hrt Hstart Hall.
  destruct (call_total requests s s1 Hrt Hstart Hall) as (results & s2 & Hcall & Hrun).
  exists results, s2. eauto using batch_run_length, batch_run_lookup.
Qed.

End shared_facts.

(** The healthy runtime of [Demo] raises instances of [Exception] only. *)
Lemma healthy_raises_Exception : completions_raise_Exception (RT:=Demo.healthy).
Proof.
  intros m args w w' e. cbn.
  destruct (arg_max_tokens args) as [| |z| | | |]; try (intros [= _ <-]; reflexivity).
  destruct (0 <? z); intros [= _ <-]. reflexivity.
Qed.

(* ===================================================================== *)
(** ** Properties of the model adapter *)
(* ===================================================================== *)

(** C1.  Once the model is loaded (or loads), and with completions that
    raise instances of [Exception] only, [__call__] on a batch of requests
    of the data model, the empty batch included, returns a list of results
    of the same length, and the result at each position is the one the
    loop produced for the request at that position, after the requests
    before it and before the requests after it; it carries that request's
    id. *)
Theorem infer_one_result_per_request_in_order `{RT : Runtime}
    (requests : list Dict) (s s1 : Proc LLMModel.t) :
  completions_raise_Exception →
  LLMModel.start s = (s1, Returned tt) →
  Forall has_sequence_messages requests →
  ∃ results s2,
    LLMModel.__call__ requests s = (s2, Returned results) ∧
    length results = length requests ∧
    ∀ i request, requests !! i = Some request →
      ∃ sa res sb,
        served_at requests s1 results s2 i request sa res sb ∧
        res !! "request_id" = Some (request_id_of request).
Proof.
  intros Hrt Hstart Hall.
  destruct (call_served requests s s1 Hrt Hstart Hall)
    as (results & s2 & Hcall & Hlen & Hpos).
  exists results, s2. split; [exact Hcall|]. split; [exact Hlen|].
  intros i request Hi.
  destruct (Hpos i request Hi) as (sa & res & sb & Hserved).
  exists sa, res, sb. split; [exact Hserved|].
  destruct Hserved as (_ & _ & _ & Hp & _). eauto using produces_request_id.
Qed.

Lemma infer_one_result_per_request_in_order_witness :
  ∃ results s2,
    LLMModel.__call__ Demo.batch Demo.unloaded = (s2, Returned results) ∧
    length results = length Demo.batch ∧
    ∀ i request, Demo.batch !! i = Some request →
      ∃ sa res sb,
        served_at Demo.batch Demo.loaded results s2 i request sa res sb ∧
        res !! "request_id" = Some (request_id_of request).
Proof.
  apply (infer_one_result_per_request_in_order Demo.batch Demo.unloaded Demo.loaded).
  - exact healthy_raises_Exception.
  - reflexivity.
  - repeat constructor.
Defined.

(** C2, as the code has it.  [except Exception] catches the instances of
    [Exception].  In a batch served by a loaded model whose completions
    raise nothing else, when the model invocation for a request raises
    [e], the call still returns: the result at that position is the
    failure result whose error is [str(e)], and the requests after it are
    served all the same, each with a result. *)
Theorem infer_isolates_invocation_failures `{RT : Runtime}
    (requests : list Dict) (s s1 : Proc LLMModel.t) :
  completions_raise_Exception →
  LLMModel.start s = (s1, Returned tt) →
  Forall has_sequence_messages requests →
  ∃ results s2,
    LLMModel.__call__ requests s = (s2, Returned results) ∧
    length results = length requests ∧
    ∀ i request, requests !! i = Some request →
      ∃ sa res sb m,
        served_at requests s1 results s2 i request sa res sb ∧
        length (drop (S i) results) = length (drop (S i) requests) ∧
        LLMModel.model (self sa) = Some m ∧
        ∀ w e,
          truthy (messages_of request) = true →
          create_chat_completion m (LLMModel.chat_args request) (world sa) = (w, Raised e) →
          world sb = w ∧
          res = {[ "request_id" := request_id_of request;
                   "success" := PyBool false;
                   "error" := PyStr (exc_str e);
                   "content" := PyNone;
                   "tool_calls" := PyNone ]}.
Proof.
  intros Hrt Hstart Hall.
  destruct (call_served requests s s1 Hrt Hstart Hall)
    as (results & s2 & Hcall & Hlen & Hpos).
  destruct (start_returns_model s s1 Hstart) as [m Hm].
  exists results, s2. split; [exact Hcall|]. split; [exact Hlen|].
  intros i request Hi.
  destruct (Hpos i request Hi) as (sa & res & sb & Hserved).
  assert (LLMModel.model (self sa) = Some m) as Hma
    by (rewrite (served_at_self _ _ _ _ _ _ _ _ _ Hserved); exact Hm).
  exists sa, res, sb, m.
  split; [exact Hserved|]. split; [eauto using served_at_rest|]. split; [exact Hma|].
  intros w e Htruthy Hraise.
  destruct Hserved as (_ & _ & _ & Hp & _).
  destruct (produces_invokes _ _ _ _ _ Htruthy Hma Hp) as (out & Hout & _ & Hres).
  rewrite Hraise in Hout. injection Hout as <- <-. split; [reflexivity | exact Hres].
Qed.

Lemma infer_isolates_invocation_failures_witness :
  ∃ results s2,
    LLMModel.__call__ Demo.batch Demo.unloaded = (s2, Returned results) ∧
    length results = length Demo.batch ∧
    ∀ i request, Demo.batch !! i = Some request →
      ∃ sa res sb m,
        served_at Demo.batch Demo.loaded results s2 i request sa res sb ∧
        length (drop (S i) results) = length (drop (S i) Demo.batch) ∧
        LLMModel.model (self sa) = Some m ∧
        ∀ w e,
          truthy (messages_of request) = true →
          create_chat_completion m (LLMModel.chat_args request) (world sa) = (w, Raised e) →
          world sb = w ∧
          res = {[ "request_id" := request_id_of request;
                   "success" := PyBool false;
                   "error" := PyStr (exc_str e);
                   "content" := PyNone;
                   "tool_calls" := PyNone ]}.
Proof.
  apply (infer_isolates_invocation_failures Demo.batch Demo.unloaded Demo.loaded).
  - exact healthy_raises_Exception.
  - reflexivity.
  - repeat constructor.
Defined.

(** C2, as stated, fails: an exception that is no instance of [Exception]
    is not caught.  With a [KeyboardInterrupt] raised during the
    completion of the second of three requests, the interrupt leaves the
    call, no list of results is returned, and the third request is never
    served: two completions were asked, not three. *)
Lemma invocation_interrupt_counterexample :
  @create_chat_completion Demo.interrupted "/models/m.gguf"
    (LLMModel.chat_args Demo.req_fail) 2%nat = (3%nat, Raised KeyboardInterrupt) ∧
  (LLMModel.__call__ [Demo.req_a; Demo.req_fail; Demo.req_bare]
     Demo.interrupted_process).2 = Raised KeyboardInterrupt ∧
  chat_count
    (trace (LLMModel.__call__ [Demo.req_a; Demo.req_fail; Demo.req_bare]
              Demo.interrupted_process).1) = 2%nat.
Proof. repeat split; reflexivity. Qed.

(** C3.  In a batch served by a loaded model, with completions that raise
    instances of [Exception] only, a request whose messages are empty (or
    absent) has, at its own position, the result
    [{request_id, success=False, error="empty_messages", content=None,
    tool_calls=None}], whatever its other fields; the process is in the
    same state before and after that request, so the world was not touched
    and no call of the model was recorded for it. *)
Theorem empty_messages_fail_without_invocation `{RT : Runtime}
    (requests : list Dict) (s s1 : Proc LLMModel.t) :
  completions_raise_Exception →
  LLMModel.start s = (s1, Returned tt) →
  Forall has_sequence_messages requests →
  ∃ results s2,
    LLMModel.__call__ requests s = (s2, Returned results) ∧
    ∀ i request,
      requests !! i = Some request →
      truthy (messages_of request) = false →
      ∃ sa,
        served_at requests s1 results s2 i request sa
          {[ "request_id" := request_id_of request;
             "success" := PyBool false;
             "error" := PyStr "empty_messages";
             "content" := PyNone;
             "tool_calls" := PyNone ]}
          sa.
Proof.
  intros Hrt Hstart Hall.
  destruct (call_served requests s s1 Hrt Hstart Hall)
    as (results & s2 & Hcall & Hlen & Hpos).
  exists results, s2. split; [exact Hcall|].
  intros i request Hi Hempty.
  destruct (Hpos i request Hi) as (sa & res & sb & Hserved).
  exists sa.
  destruct Hserved as (Hreq & Hres & Hpre & Hp & Hpost).
  destruct (produces_empty _ _ _ _ Hempty Hp) as [-> ->].
  repeat split; assumption.
Qed.

Lemma empty_messages_fail_without_invocation_witness :
  ∃ results s2,
    LLMModel.__call__ Demo.batch Demo.unloaded = (s2, Returned results) ∧
    ∀ i request,
      Demo.batch !! i = Some request →
      truthy (messages_of request) = false →
      ∃ sa,
        served_at Demo.batch Demo.loaded results s2 i request sa
          {[ "request_id" := request_id_of request;
             "success" := PyBool false;
             "error" := PyStr "empty_messages";
             "content" := PyNone;
             "tool_calls" := PyNone ]}
          sa.
Proof.
  apply (empty_messages_fail_without_invocation Demo.batch Demo.unloaded Demo.loaded).
  - exact healthy_raises_Exception.
  - reflexivity.
  - repeat constructor.
Defined.

Section result_facts.
Context `{RT : Runtime}.

(** A result is one of the three dictionaries the loop builds. *)
Lemma produces_shape request s res s' :
  produces request s res s' →
  res = LLMModel.empty_messages_result (request_id_of request)
  ∨ (∃ e, res = LLMModel.failure_result (request_id_of request) e)
  ∨ (∃ content tool_calls usage,
       res = LLMModel.success_result (request_id_of request) content tool_calls usage).
Proof.
  intros (_ & [(_ & -> & _) | [(_ & _ & _ & e & ->) | (_ & m & out & _ & _ & _ & Hout)]])%produces_inv.
  - left. reflexivity.
  - right. left. exists e. reflexivity.
  - destruct out as [response|e];
      [destruct Hout as [[e ->] | (d & content & tool_calls & _ & ->)] | subst res].
    + right. left. exists e. reflexivity.
    + right. right. do 3 eexists. reflexivity.
    + right. left. exists e. reflexivity.
Qed.

Lemma success_flag_is_bool request s res s' :
  produces request s res s' → ∃ b, res !! "success" = Some (PyBool b).
Proof.
  intros [-> | [[e ->] | (content & tool_calls & usage & ->)]]%produces_shape;
    [exists false | exists false | exists true]; reflexivity.
Qed.

Lemma produces_invariant request s res s' :
  produces request s res s' → result_invariant res.
Proof.
  intros [-> | [[e ->] | (content & tool_calls & usage & ->)]]%produces_shape.
  - split; intros Hflag; [discriminate Hflag | split; reflexivity].
  - split; intros Hflag; [discriminate Hflag | split; reflexivity].
  - split; intros Hflag; [reflexivity | discriminate Hflag].
Qed.

Lemma batch_run_Forall (P : Dict → Prop) requests s results s' :
  (∀ request sa res sb, produces request sa res sb → P res) →
  batch_run requests s results s' → Forall P results.
Proof. intros HP. induction 1; constructor; eauto. Qed.

End result_facts.

(** C6.  Every result of a returned list has a boolean [success]; when it
    is [True] the [error] is [None], and when it is [False] both [content]
    and [tool_calls] are [None]. *)
Theorem results_satisfy_invariant `{RT : Runtime}
    (requests : list Dict) (s s2 : Proc LLMModel.t) (results : list Dict) :
  LLMModel.__call__ requests s = (s2, Returned results) →
  Forall (λ res, (∃ b, res !! "success" = Some (PyBool b)) ∧ result_invariant res) results.
Proof.
  intros (s1 & _ & Hrun)%call_inv.
  apply (batch_run_Forall _ requests s1 results s2); [|exact Hrun].
  intros request sa res sb Hp. eauto using success_flag_is_bool, produces_invariant.
Qed.

Lemma results_satisfy_invariant_witness :
  Forall (λ res, (∃ b, res !! "success" = Some (PyBool b)) ∧ result_invariant res)
    (match (LLMModel.__call__ Demo.batch Demo.unloaded).2 with
     | Returned results => results
     | Raised _ => []
     end).
Proof.
  apply (results_satisfy_invariant Demo.batch Demo.unloaded
           (LLMModel.__call__ Demo.batch Demo.unloaded).1).
  reflexivity.
Defined.

Section usage_facts.
Context `{RT : Runtime}.

(** Where the [usage] of a result comes from. *)
Lemma produces_usage request s res s' :
  produces request s res s' →
  (res !! "success" = Some (PyBool false) → res !! "usage" = None) ∧
  (res !! "success" = Some (PyBool true) →
     ∃ m d,
       trace s' = trace s ++ [EvChat m (LLMModel.chat_args request) (Returned (PyDict d))] ∧
       res !! "usage" = Some (dict_get d "usage" (PyDict ∅))).
Proof.
  intros (_ & [(_ & -> & _) | [(_ & _ & _ & e & ->) | (_ & m & out & _ & _ & -> & Hout)]])%produces_inv.
  - split; intros Hflag; [reflexivity | discriminate Hflag].
  - split; intros Hflag; [reflexivity | discriminate Hflag].
  - destruct out as [response|e];
      [destruct Hout as [[e ->] | (d & content & tool_calls & -> & ->)] | subst res].
    + split; intros Hflag; [reflexivity | discriminate Hflag].
    + split; intros Hflag; [discriminate Hflag |].
      exists m, d. split; reflexivity.
    + split; intros Hflag; [reflexivity | discriminate Hflag].
Qed.

End usage_facts.

(** C10.  In a returned list, a result with [success=False] (from the
    empty-messages check or from a caught exception) has no [usage] key; a
    result with [success=True] has one, holding the [usage] entry of the
    response the model gave for that request, or the empty mapping when the
    response has none; and a request without [request_id] gets the id
    ["unknown"]. *)
Theorem usage_only_on_success_and_default_id `{RT : Runtime}
    (requests : list Dict) (s s2 : Proc LLMModel.t) (results : list Dict) :
  LLMModel.__call__ requests s = (s2, Returned results) →
  ∃ s1,
    LLMModel.start s = (s1, Returned tt) ∧
    ∀ i request, requests !! i = Some request →
      ∃ sa res sb,
        served_at requests s1 results s2 i request sa res sb ∧
        (res !! "success" = Some (PyBool false) → res !! "usage" = None) ∧
        (res !! "success" = Some (PyBool true) →
           ∃ m d,
             trace sb = trace sa ++
               [EvChat m (LLMModel.chat_args request) (Returned (PyDict d))] ∧
             res !! "usage" = Some (default (PyDict ∅) (d !! "usage"))) ∧
        (request !! "request_id" = None → res !! "request_id" = Some (PyStr "unknown")).
Proof.
  intros (s1 & Hstart & Hrun)%call_inv.
  exists s1. split; [exact Hstart|].
  intros i request Hi.
  destruct (batch_run_lookup _ _ _ _ _ _ Hrun Hi) as (sa & res & sb & Hserved).
  exists sa, res, sb. split; [exact Hserved|].
  destruct Hserved as (_ & _ & _ & Hp & _).
  destruct (produces_usage _ _ _ _ Hp) as [Hfail Hok].
  split; [exact Hfail|]. split; [exact Hok|].
  intros Hid. rewrite (produces_request_id _ _ _ _ Hp).
  unfold request_id_of, dict_get. rewrite Hid. reflexivity.
Qed.

Lemma usage_only_on_success_and_default_id_witness :
  ∃ s1,
    LLMModel.start Demo.unloaded = (s1, Returned tt) ∧
    ∀ i request, Demo.batch !! i = Some request →
      ∃ sa res sb,
        served_at Demo.batch s1
          (match (LLMModel.__call__ Demo.batch Demo.unloaded).2 with
           | Returned results => results
           | Raised _ => []
           end)
          (LLMModel.__call__ Demo.batch Demo.unloaded).1 i request sa res sb ∧
        (res !! "success" = Some (PyBool false) → res !! "usage" = None) ∧
        (res !! "success" = Some (PyBool true) →
           ∃ m d,
             trace sb = trace sa ++
               [EvChat m (LLMModel.chat_args request) (Returned (PyDict d))] ∧
             res !! "usage" = Some (default (PyDict ∅) (d !! "usage"))) ∧
        (request !! "request_id" = None → res !! "request_id" = Some (PyStr "unknown")).
Proof.
  apply (usage_only_on_success_and_default_id Demo.batch Demo.unloaded).
  reflexivity.
Defined.

(** C8.  In a batch served by a loaded model, with completions that raise
    instances of [Exception] only, a request with non-empty messages is
    one call of [create_chat_completion] on that model, made
    in the state the requests before it left; the call receives the
    request's own [messages], [max_tokens], [temperature], [tools] and
    [tool_choice]; its [response_format] is [{"type": "json_object"}] when
    [tools] is true-valued, which for a sequence means non-empty, and is
    [None] otherwise: in particular when [tools] is missing, [None] or an
    empty list. *)
Theorem nonempty_request_invokes_model `{RT : Runtime}
    (requests : list Dict) (s s1 : Proc LLMModel.t) :
  completions_raise_Exception →
  LLMModel.start s = (s1, Returned tt) →
  Forall has_sequence_messages requests →
  ∃ results s2,
    LLMModel.__call__ requests s = (s2, Returned results) ∧
    ∀ i request,
      requests !! i = Some request →
      truthy (messages_of request) = true →
      ∃ sa res sb m args out,
        served_at requests s1 results s2 i request sa res sb ∧
        LLMModel.model (self s1) = Some m ∧
        create_chat_completion m args (world sa) = (world sb, out) ∧
        trace sb = trace sa ++ [EvChat m args out] ∧
        (∀ v, request !! "messages" = Some v → arg_messages args = v) ∧
        (∀ v, request !! "max_tokens" = Some v → arg_max_tokens args = v) ∧
        (∀ v, request !! "temperature" = Some v → arg_temperature args = v) ∧
        (∀ v, request !! "tools" = Some v → arg_tools args = v) ∧
        (∀ v, request !! "tool_choice" = Some v → arg_tool_choice args = v) ∧
        arg_response_format args =
          (if truthy (default PyNone (request !! "tools"))
           then PyDict {[ "type" := PyStr "json_object" ]} else PyNone) ∧
        (request !! "tools" = None ∨ request !! "tools" = Some PyNone ∨
         request !! "tools" = Some (PyList []) →
           arg_response_format args = PyNone) ∧
        (∀ tool tools, request !! "tools" = Some (PyList (tool :: tools)) →
           arg_response_format args = PyDict {[ "type" := PyStr "json_object" ]}).
Proof.
  intros Hrt Hstart Hall.
  destruct (call_served requests s s1 Hrt Hstart Hall)
    as (results & s2 & Hcall & Hlen & Hpos).
  destruct (start_returns_model s s1 Hstart) as [m Hm].
  exists results, s2. split; [exact Hcall|].
  intros i request Hi Htruthy.
  destruct (Hpos i request Hi) as (sa & res & sb & Hserved).
  assert (LLMModel.model (self sa) = Some m) as Hma
    by (rewrite (served_at_self _ _ _ _ _ _ _ _ _ Hserved); exact Hm).
  pose proof Hserved as (_ & _ & _ & Hp & _).
  destruct (produces_invokes _ _ _ _ _ Htruthy Hma Hp) as (out & Hout & Htrace & _).
  exists sa, res, sb, m, (LLMModel.chat_args request), out.
  split; [exact Hserved|]. split; [exact Hm|]. split; [exact Hout|]. split; [exact Htrace|].
  unfold LLMModel.chat_args, dict_get; cbn [arg_messages arg_max_tokens arg_temperature
    arg_tools arg_tool_choice arg_response_format].
  repeat (split; [by intros v ->|]).
  split; [reflexivity|].
  split.
  - intros [-> | [-> | ->]]; reflexivity.
  - intros tool tools ->. reflexivity.
Qed.

Lemma nonempty_request_invokes_model_witness :
  ∃ results s2,
    LLMModel.__call__ Demo.batch Demo.unloaded = (s2, Returned results) ∧
    ∀ i request,
      Demo.batch !! i = Some request →
      truthy (messages_of request) = true →
      ∃ sa res sb m args out,
        served_at Demo.batch Demo.loaded results s2 i request sa res sb ∧
        LLMModel.model (self Demo.loaded) = Some m ∧
        create_chat_completion m args (world sa) = (world sb, out) ∧
        trace sb = trace sa ++ [EvChat m args out] ∧
        (∀ v, request !! "messages" = Some v → arg_messages args = v) ∧
        (∀ v, request !! "max_tokens" = Some v → arg_max_tokens args = v) ∧
        (∀ v, request !! "temperature" = Some v → arg_temperature args = v) ∧
        (∀ v, request !! "tools" = Some v → arg_tools args = v) ∧
        (∀ v, request !! "tool_choice" = Some v → arg_tool_choice args = v) ∧
        arg_response_format args =
          (if truthy (default PyNone (request !! "tools"))
           then PyDict {[ "type" := PyStr "json_object" ]} else PyNone) ∧
        (request !! "tools" = None ∨ request !! "tools" = Some PyNone ∨
         request !! "tools" = Some (PyList []) →
           arg_response_format args = PyNone) ∧
        (∀ tool tools, request !! "tools" = Some (PyList (tool :: tools)) →
           arg_response_format args = PyDict {[ "type" := PyStr "json_object" ]}).
Proof.
  apply (nonempty_request_invokes_model Demo.batch Demo.unloaded Demo.loaded).
  - exact healthy_raises_Exception.
  - reflexivity.
  - repeat constructor.
Defined.

(** C9.  In a batch served by a loaded model, with completions that raise
    instances of [Exception] only, the call made for a request with
    non-empty messages receives [max_tokens=512] when the request has
    no [max_tokens], [temperature=0.1] when it has no [temperature],
    [tools=None] when it has no [tools] and [tool_choice=None] when it has
    no [tool_choice]. *)
Theorem absent_fields_take_documented_defaults `{RT : Runtime}
    (requests : list Dict) (s s1 : Proc LLMModel.t) :
  completions_raise_Exception →
  LLMModel.start s = (s1, Returned tt) →
  Forall has_sequence_messages requests →
  ∃ results s2,
    LLMModel.__call__ requests s = (s2, Returned results) ∧
    ∀ i request,
      requests !! i = Some request →
      truthy (messages_of request) = true →
      ∃ sa res sb m args out,
        served_at requests s1 results s2 i request sa res sb ∧
        trace sb = trace sa ++ [EvChat m args out] ∧
        (request !! "max_tokens" = None → arg_max_tokens args = PyInt 512) ∧
        (request !! "temperature" = None → arg_temperature args = PyFloat 0.1) ∧
        (request !! "tools" = None → arg_tools args = PyNone) ∧
        (request !! "tool_choice" = None → arg_tool_choice args = PyNone).
Proof.
  intros Hrt Hstart Hall.
  destruct (call_served requests s s1 Hrt Hstart Hall)
    as (results & s2 & Hcall & Hlen & Hpos).
  destruct (start_returns_model s s1 Hstart) as [m Hm].
  exists results, s2. split; [exact Hcall|].
  intros i request Hi Htruthy.
  destruct (Hpos i request Hi) as (sa & res & sb & Hserved).
  assert (LLMModel.model (self sa) = Some m) as Hma
    by (rewrite (served_at_self _ _ _ _ _ _ _ _ _ Hserved); exact Hm).
  pose proof Hserved as (_ & _ & _ & Hp & _).
  destruct (produces_invokes _ _ _ _ _ Htruthy Hma Hp) as (out & Hout & Htrace & _).
  exists sa, res, sb, m, (LLMModel.chat_args request), out.
  split; [exact Hserved|]. split; [exact Htrace|].
  unfold LLMModel.chat_args, dict_get; cbn [arg_max_tokens arg_temperature
    arg_tools arg_tool_choice].
  repeat split; by intros ->.
Qed.

Lemma absent_fields_take_documented_defaults_witness :
  ∃ results s2,
    LLMModel.__call__ Demo.batch Demo.unloaded = (s2, Returned results) ∧
    ∀ i request,
      Demo.batch !! i = Some request →
      truthy (messages_of request) = true →
      ∃ sa res sb m args out,
        served_at Demo.batch Demo.loaded results s2 i request sa res sb ∧
        trace sb = trace sa ++ [EvChat m args out] ∧
        (request !! "max_tokens" = None → arg_max_tokens args = PyInt 512) ∧
        (request !! "temperature" = None → arg_temperature args = PyFloat 0.1) ∧
        (request !! "tools" = None → arg_tools args = PyNone) ∧
        (request !! "tool_choice" = None → arg_tool_choice args = PyNone).
Proof.
  apply (absent_fields_take_documented_defaults Demo.batch Demo.unloaded Demo.loaded).
  - exact healthy_raises_Exception.
  - reflexivity.
  - repeat constructor.
Defined.

(* ===================================================================== *)
(** ** Loading happens lazily and once *)
(* ===================================================================== *)

Section loading_facts.
Context `{RT : Runtime}.
Implicit Types (request : Dict) (requests : list Dict).
Implicit Types (s : Proc LLMModel.t) (tr : list Event).

Lemma for_each_cons {S A B} (x : A) (xs : list A) (body : A → B → M S B) acc (st : S) :
  for_each (x :: xs) body acc st =
    match body x acc st with
    | (st', Returned acc') => for_each xs body acc' st'
    | (st', Raised e) => (st', Raised e)
    end.
Proof. reflexivity. Qed.

Lemma successful_loads_app tr1 tr2 :
  successful_loads (tr1 ++ tr2) = (successful_loads tr1 + successful_loads tr2)%nat.
Proof. unfold successful_loads. rewrite List.filter_app, length_app. reflexivity. Qed.

Lemma load_attempts_app tr1 tr2 :
  load_attempts (tr1 ++ tr2) = (load_attempts tr1 + load_attempts tr2)%nat.
Proof. unfold load_attempts. rewrite List.filter_app, length_app. reflexivity. Qed.

Lemma loads_use_app path ctx gpu tr1 tr2 :
  loads_use path ctx gpu tr1 → loads_use path ctx gpu tr2 →
  loads_use path ctx gpu (tr1 ++ tr2).
Proof. intros H1 H2 args r [Hin|Hin]%elem_of_app; eauto. Qed.

Lemma loads_use_chat path ctx gpu m args out :
  loads_use path ctx gpu [EvChat m args out].
Proof. intros args' r Hin%list_elem_of_singleton. discriminate. Qed.

(** The state a turn of the loop leaves, whether it returns or raises:
    the object is as before and the trace grew by at most one
    completion. *)
Lemma loop_body_state request acc s :
  let s' := (LLMModel.loop_body request acc s).1 in
  self s' = self s ∧
  (trace s' = trace s ∨ ∃ m args out, trace s' = trace s ++ [EvChat m args out]).
Proof.
  unfold_body. repeat case_match; simplify_eq; cbn [fst self trace]; eauto 10.
Qed.

Lemma for_each_state requests acc s :
  let s' := (for_each requests LLMModel.loop_body acc s).1 in
  self s' = self s ∧
  successful_loads (trace s') = successful_loads (trace s) ∧
  load_attempts (trace s') = load_attempts (trace s) ∧
  ∀ path ctx gpu, loads_use path ctx gpu (trace s) → loads_use path ctx gpu (trace s').
Proof.
  revert acc s. induction requests as [|request requests IH]; intros acc s; [by cbn|].
  rewrite for_each_cons.
  pose proof (loop_body_state request acc s) as [Hself Htrace].
  assert (successful_loads (trace (LLMModel.loop_body request acc s).1)
            = successful_loads (trace s)
          ∧ load_attempts (trace (LLMModel.loop_body request acc s).1)
            = load_attempts (trace s)
          ∧ ∀ path ctx gpu, loads_use path ctx gpu (trace s) →
              loads_use path ctx gpu (trace (LLMModel.loop_body request acc s).1))
    as (Hok & Hall & Huse).
  { destruct Htrace as [-> | (m & args & out & ->)]; [done|].
    rewrite successful_loads_app, load_attempts_app. cbn.
    split; [lia|]. split; [lia|].
    intros path ctx gpu Huse. eauto using loads_use_app, loads_use_chat. }
  destruct (LLMModel.loop_body request acc s) as [s1 [acc'|e]]; cbn [fst] in *; [|done].
  destruct (IH acc' s1) as (IHself & IHok & IHall & IHuse).
  rewrite IHself, IHok, IHall, Hself, Hok, Hall.
  repeat (split; [reflexivity|]). eauto.
Qed.

Lemma start_keeps_loaded_once path ctx gpu s :
  loaded_once path ctx gpu s → loaded_once path ctx gpu (LLMModel.start s).1.
Proof.
  intros (Hpath & Hctx & Hgpu & Huse & Hcount).
  destruct (LLMModel.start s) as [s' o] eqn:Hstart. cbn [fst].
  apply start_inv in Hstart
    as [(m & Hm & -> & _) | [(_ & e & _ & -> & _) | (Hm & n & w & r & _ & _ & Hr)]];
    [unfold loaded_once; eauto 10 | unfold loaded_once; eauto 10 |].
  rewrite Hm in Hcount.
  assert (loads_use path ctx gpu (trace s ++ [EvLoad (load_args (self s) n) r])) as Huse'.
  { apply loads_use_app; [exact Huse|].
    intros args' r' Hin%list_elem_of_singleton. injection Hin as -> _.
    cbn. eauto. }
  destruct r as [m|e]; cbn in Hr; destruct Hr as [-> _]; unfold loaded_once;
    cbn [self trace LLMModel.with_model LLMModel.model_path LLMModel.n_ctx
           LLMModel.n_gpu_layers LLMModel.model];
    rewrite ?Hm, successful_loads_app, Hcount; eauto 10.
Qed.

Lemma call_keeps_loaded_once path ctx gpu requests s :
  loaded_once path ctx gpu s → loaded_once path ctx gpu (LLMModel.__call__ requests s).1.
Proof.
  intros Hinv%start_keeps_loaded_once. rewrite call_unfold.
  destruct (LLMModel.start s) as [s1 [[]|e]]; cbn [fst] in *; [|exact Hinv].
  destruct Hinv as (Hpath & Hctx & Hgpu & Huse & Hcount).
  destruct (for_each_state requests [] s1) as (Hself & Hok & _ & Hkeep).
  unfold loaded_once. rewrite Hself, Hok. eauto 10.
Qed.

Lemma run_ops_keeps_loaded_once path ctx gpu ops s :
  loaded_once path ctx gpu s → loaded_once path ctx gpu (run_ops ops s).
Proof.
  revert s. induction ops as [|o ops IH]; intros s Hinv; [exact Hinv|].
  cbn. apply IH. destruct o; cbn;
    eauto using start_keeps_loaded_once, call_keeps_loaded_once.
Qed.

End loading_facts.

Section trace_facts.
Context `{RT : Runtime}.

(** The loop only ever extends the trace. *)
Lemma for_each_trace_prefix (requests : list Dict) acc (s : Proc LLMModel.t) :
  ∃ rest, trace (for_each requests LLMModel.loop_body acc s).1 = trace s ++ rest.
Proof.
  revert acc s. induction requests as [|request requests IH]; intros acc s.
  - exists []. cbn. by rewrite app_nil_r.
  - rewrite for_each_cons.
    pose proof (loop_body_state request acc s) as [_ Htrace].
    destruct (LLMModel.loop_body request acc s) as [s1 [acc'|e]]; cbn [fst] in *.
    + destruct (IH acc' s1) as [rest ->].
      destruct Htrace as [-> | (m & args & out & ->)]; [eauto|].
      rewrite <- app_assoc. eauto.
    + destruct Htrace as [-> | (m & args & out & ->)]; [|eauto].
      exists []. by rewrite app_nil_r.
Qed.

Lemma fresh_loaded_once path ctx gpu (w : World) :
  loaded_once path ctx gpu (mkProc (LLMModel.__init__ path ctx gpu) w []).
Proof.
  unfold loaded_once. cbn. repeat (split; [reflexivity|]). split; [|reflexivity].
  intros args r Hin. by apply elem_of_nil in Hin.
Qed.

End trace_facts.

(** C7.  Loading is lazy, idempotent and done at most once.  Building the
    object loads nothing.  A call on an object without a model runs the
    loading code first: when the thread-count setting reads as a number,
    the first thing the call adds to the trace is a load with the object's
    path, context size and layer count.  When a model is held, [start]
    changes nothing, and a call leaves the object as it is and attempts no
    load.  After any sequence of [start]s and calls on a new object, at
    most one load has succeeded, every load was asked with the parameters
    given at construction, and the object still has these parameters. *)
Theorem model_loaded_lazily_at_most_once `{RT : Runtime}
    (path : string) (ctx gpu : Z) (w : World) :
  let s0 := mkProc (LLMModel.__init__ path ctx gpu) w [] in
  (LLMModel.model (self s0) = None ∧ trace s0 = []) ∧
  (∀ requests (s : Proc LLMModel.t) n,
     LLMModel.model (self s) = None →
     int_of_str (default "4" (environ_get (world s) "LLAMA_N_THREADS")) = Returned n →
     ∃ r rest,
       trace (LLMModel.__call__ requests s).1 =
         trace s ++
           EvLoad {| arg_model_path := LLMModel.model_path (self s);
                     arg_n_ctx := LLMModel.n_ctx (self s);
                     arg_n_gpu_layers := LLMModel.n_gpu_layers (self s);
                     arg_n_threads := n;
                     arg_verbose := false |} r :: rest) ∧
  (∀ (s : Proc LLMModel.t) m,
     LLMModel.model (self s) = Some m → LLMModel.start s = (s, Returned tt)) ∧
  (∀ requests (s : Proc LLMModel.t) m,
     LLMModel.model (self s) = Some m →
     self (LLMModel.__call__ requests s).1 = self s ∧
     load_attempts (trace (LLMModel.__call__ requests s).1) = load_attempts (trace s)) ∧
  (∀ ops,
     (successful_loads (trace (run_ops ops s0)) ≤ 1)%nat ∧
     loads_use path ctx gpu (trace (run_ops ops s0)) ∧
     LLMModel.model_path (self (run_ops ops s0)) = path ∧
     LLMModel.n_ctx (self (run_ops ops s0)) = ctx ∧
     LLMModel.n_gpu_layers (self (run_ops ops s0)) = gpu).
Proof.
  intros s0. split; [split; reflexivity|]. split; [|split; [|split]].
  - intros requests s n Hm Hn. rewrite call_unfold.
    destruct (LLMModel.start s) as [s1 o] eqn:Hstart.
    apply start_inv in Hstart
      as [(m & Hm' & _) | [(_ & e & He & _) | (_ & n' & w' & r & Hn' & _ & Hr)]];
      [congruence | unfold threads_setting in He; congruence |].
    unfold threads_setting in Hn'. assert (n' = n) as -> by congruence.
    exists r. unfold load_args in Hr.
    destruct r as [m|e]; cbn in Hr; destruct Hr as [-> ->].
    + destruct (for_each_trace_prefix requests []
                  (mkProc (LLMModel.with_model (self s) (Some m)) w'
                     (trace s ++ [EvLoad
                        {| arg_model_path := LLMModel.model_path (self s);
                           arg_n_ctx := LLMModel.n_ctx (self s);
                           arg_n_gpu_layers := LLMModel.n_gpu_layers (self s);
                           arg_n_threads := n;
                           arg_verbose := false |} (Returned m)])))
        as [rest ->].
      exists rest. cbn [trace]. rewrite <- app_assoc. reflexivity.
    + exists []. reflexivity.
  - intros s m Hm. exact (start_loaded s m Hm).
  - intros requests s m Hm. rewrite call_unfold, (start_loaded s m Hm).
    destruct (for_each_state requests [] s) as (Hself & _ & Hall & _). eauto.
  - intros ops.
    destruct (run_ops_keeps_loaded_once path ctx gpu ops s0 (fresh_loaded_once path ctx gpu w))
      as (Hpath & Hctx & Hgpu & Huse & Hcount).
    split; [|eauto]. rewrite Hcount. destruct (LLMModel.model _); lia.
Qed.

(* ===================================================================== *)
(** ** Properties of the service *)
(* ===================================================================== *)

Section service_facts.
Context `{RT : Runtime}.

Lemma service_call_unfold requests (s : Proc LLMService.t) :
  LLMService.__call__ requests s =
    let r := LLMModel.__call__ requests (model_view s) in
    (mkProc (LLMService.with_model (self s) (self r.1)) (world r.1) (trace r.1), r.2).
Proof.
  unfold LLMService.__call__, zoom, model_view.
  destruct (LLMModel.__call__ requests _) as [s' r]. reflexivity.
Qed.

Lemma chat_count_app (tr1 tr2 : list Event) :
  chat_count (tr1 ++ tr2) = (chat_count tr1 + chat_count tr2)%nat.
Proof. unfold chat_count. rewrite List.filter_app, length_app. reflexivity. Qed.

(** A [start] that raises has left no model and requested no completion. *)
Lemma start_raised s s1 e :
  LLMModel.start s = (s1, Raised e) →
  LLMModel.model (self s1) = None ∧ chat_count (trace s1) = chat_count (trace s).
Proof.
  intros [(m & _ & _ & ?) | [(Hm & e' & _ & -> & _) | (Hm & n & w & r & _ & _ & Hr)]]%start_inv;
    [discriminate | eauto |].
  destruct r as [m|e']; cbn in Hr; destruct Hr as [-> ?]; [discriminate|].
  cbn [self trace]. rewrite chat_count_app. cbn. split; [exact Hm | lia].
Qed.

End service_facts.

(** C4, as the code has it.  When loading the model raises [e] during a
    call on a batch, no result is built: [e] leaves [LLMModel.__call__]
    and [LLMService.__call__] as it is, whatever the batch; no completion
    was requested and the object still holds no model. *)
Theorem wholesale_failure_propagates `{RT : Runtime}
    (requests : list Dict) (s : Proc LLMService.t) (sm : Proc LLMModel.t) (e : exn) :
  LLMModel.start (model_view s) = (sm, Raised e) →
  LLMModel.__call__ requests (model_view s) = (sm, Raised e) ∧
  LLMService.__call__ requests s =
    (mkProc (LLMService.with_model (self s) (self sm)) (world sm) (trace sm), Raised e) ∧
  LLMModel.model (self sm) = None ∧
  chat_count (trace sm) = chat_count (trace s).
Proof.
  intros Hstart.
  pose proof (call_start_raised requests _ _ _ Hstart) as Hcall.
  split; [exact Hcall|]. split.
  - rewrite service_call_unfold, Hcall. reflexivity.
  - exact (start_raised _ _ _ Hstart).
Qed.

Lemma wholesale_failure_propagates_witness :
  let sm := (LLMModel.start (model_view Demo.broken_service)).1 in
  let e := Exception "ValueError" "Failed to load model from file: /models/m.gguf" in
  LLMModel.__call__ Demo.batch (model_view Demo.broken_service) = (sm, Raised e) ∧
  LLMService.__call__ Demo.batch Demo.broken_service =
    (mkProc (LLMService.with_model (self Demo.broken_service) (self sm)) (world sm) (trace sm),
     Raised e) ∧
  LLMModel.model (self sm) = None ∧
  chat_count (trace sm) = chat_count (trace Demo.broken_service).
Proof.
  apply (wholesale_failure_propagates (RT:=Demo.broken)). reflexivity.
Defined.

(** C4, as stated, fails: with a model file that cannot be loaded, a call
    of the service on a batch of four requests ends with the loader's
    exception and returns no list of results. *)
Lemma wholesale_failure_counterexample :
  (LLMService.__call__ Demo.batch Demo.broken_service).2
    = Raised (Exception "ValueError" "Failed to load model from file: /models/m.gguf")
  ∧ (∀ results,
       (LLMService.__call__ Demo.batch Demo.broken_service).2 ≠ Returned results).
Proof.
  split; [reflexivity|]. intros results Hres. discriminate Hres.
Qed.

(** C5, as the code has it.  [reconfigure] checks nothing: whatever the
    mapping holds under [max_batch_size] and [batch_wait_timeout_s] (16
    and 0.05 when absent) is stored in the service's fields before
    anything else happens, and the model object is left alone. *)
Theorem reconfigure_stores_without_validation `{RT : Runtime}
    (user_config : Dict) (s : Proc LLMService.t) :
  LLMService.max_batch_size (self (LLMService.reconfigure user_config s).1)
    = default (PyInt 16) (user_config !! "max_batch_size") ∧
  LLMService.batch_wait_timeout_s (self (LLMService.reconfigure user_config s).1)
    = default (PyFloat 0.05) (user_config !! "batch_wait_timeout_s") ∧
  LLMService.model (self (LLMService.reconfigure user_config s).1)
    = LLMService.model (self s).
Proof.
  repeat split; reflexivity.
Qed.

(** C5, as stated, fails: reconfiguring a new service with
    [max_batch_size=0] overwrites the stored 16 with 0, and the exception
    raised is not a rejection of the configuration. *)
Lemma reconfigure_zero_counterexample :
  LLMService.max_batch_size (self Demo.service) = PyInt 16 ∧
  LLMService.max_batch_size
    (self (LLMService.reconfigure {[ "max_batch_size" := PyInt 0 ]} Demo.service).1)
    = PyInt 0 ∧
  (LLMService.reconfigure {[ "max_batch_size" := PyInt 0 ]} Demo.service).2
    = Raised (AttributeError "'function' object has no attribute 'set_max_batch_size'").
Proof.
  repeat split; reflexivity.
Qed.

(* ===================================================================== *)
(** ** A batch, run *)
(* ===================================================================== *)

(** The batch of [Demo]: a complete request, one without messages, one
    whose completion raises, and one with messages only. *)
Example demo_batch_returns :
  ∃ results s2, LLMModel.__call__ Demo.batch Demo.unloaded = (s2, Returned results).
Proof. do 2 eexists. reflexivity. Qed.

Example demo_batch_ids :
  match (LLMModel.__call__ Demo.batch Demo.unloaded).2 with
  | Returned results => (.!! "request_id") <$> results
  | Raised _ => []
  end = [Some (PyStr "a"); Some (PyStr "b"); Some (PyStr "c"); Some (PyStr "unknown")].
Proof. reflexivity. Qed.

Example demo_batch_errors :
  match (LLMModel.__call__ Demo.batch Demo.unloaded).2 with
  | Returned results => (.!! "error") <$> results
  | Raised _ => []
  end = [Some PyNone; Some (PyStr "empty_messages");
         Some (PyStr "max_tokens must be positive"); Some PyNone].
Proof. reflexivity. Qed.

Example demo_batch_usage :
  match (LLMModel.__call__ Demo.batch Demo.unloaded).2 with
  | Returned results => (.!! "usage") <$> results
  | Raised _ => []
  end = [Some (PyDict {[ "total_tokens" := PyInt 7 ]}); None; None;
         Some (PyDict {[ "total_tokens" := PyInt 7 ]})].
Proof. reflexivity. Qed.

(** One load and three completions: none for the request without
    messages. *)
Example demo_batch_calls :
  successful_loads (trace (LLMModel.__call__ Demo.batch Demo.unloaded).1) = 1%nat ∧
  chat_count (trace (LLMModel.__call__ Demo.batch Demo.unloaded).1) = 3%nat.
Proof. split; reflexivity. Qed.

(** The arguments of the call made for the request with messages only. *)
Example demo_bare_arguments :
  LLMModel.chat_args Demo.req_bare =
    {| arg_messages := PyList [Demo.message "hi"];
       arg_max_tokens := PyInt 512;
       arg_temperature := PyFloat 0.1;
       arg_tools := PyNone;
       arg_tool_choice := PyNone;
       arg_response_format := PyNone |}.
Proof. reflexivity. Qed.

(** A second call on the same object loads nothing more. *)
Example demo_second_call :
  load_attempts
    (trace (LLMModel.__call__ Demo.batch
              (LLMModel.__call__ Demo.batch Demo.unloaded).1).1) = 1%nat.
Proof. reflexivity. Qed.

(* ===================================================================== *)
(** ** At the edge of the data model *)
(* ===================================================================== *)

(** The length of the messages is taken for the log line before the [try]
    statement is entered.  A request whose [messages] is not a sequence is
    outside the data model; it ends the whole call with a [TypeError], and
    the results gathered so far are not returned. *)
Example untyped_messages_end_the_call :
  (LLMModel.__call__ [Demo.req_a; Demo.req_untyped; Demo.req_bare] Demo.unloaded).2
    = Raised (TypeError "object of type 'NoneType' has no len()").
Proof. reflexivity. Qed.

(** A response without [choices] is a failure of that request only. *)
Example malformed_response_is_a_failure `{RT : Runtime}
    (request : Dict) (s : Proc LLMModel.t) (m : Llama) (w : World) :
  has_sequence_messages request →
  truthy (messages_of request) = true →
  LLMModel.model (self s) = Some m →
  create_chat_completion m (LLMModel.chat_args request) (world s) = (w, Returned (PyDict ∅)) →
  ∃ s', produces request s
          (LLMModel.failure_result (request_id_of request) (KeyError "'choices'")) s'.
Proof.
  unfold has_sequence_messages, messages_of, request_id_of.
  intros [n Hlen]%sized_len Htruthy Hm Hcall.
  eexists. unfold_body. rewrite Hlen, Htruthy. cbn [negb]. cbv beta.
  rewrite Hm, Hcall. reflexivity.
Qed.

(** [reconfigure] looks the setters up on [LLMModel.__call__], which has
    none: every call ends with an [AttributeError], after the fields were
    written. *)
Lemma reconfigure_raises `{RT : Runtime} (user_config : Dict) (s : Proc LLMService.t) :
  (LLMService.reconfigure user_config s).2
    = Raised (AttributeError "'function' object has no attribute 'set_max_batch_size'").
Proof. reflexivity. Qed.

(* ===================================================================== *)
(** ** What becomes of a response *)
(* ===================================================================== *)

Section response_facts.
Context `{RT : Runtime}.
Implicit Types (request : Dict) (s : Proc LLMModel.t).

Lemma getitem_int_first x l : getitem_int (PyList (x :: l)) 0 = Returned x.
Proof.
  unfold getitem_int, index_in. cbn [Z.ltb Z.compare Z.leb andb].
  replace (0 <? Z.of_nat (length (x :: l))) with true
    by (symmetry; apply Z.ltb_lt; cbn [length]; lia).
  reflexivity.
Qed.

Lemma unsized_len v :
  sized v = false →
  len v = Raised (TypeError ("object of type '" +:+ type_name v +:+ "' has no len()")).
Proof. destruct v; try discriminate; reflexivity. Qed.

Lemma len_or_zero_ok v :
  (truthy v = true → sized v = true) → ∃ n, LLMModel.len_or_zero v = Returned n.
Proof.
  unfold LLMModel.len_or_zero. destruct (truthy v); [|eauto].
  intros Hs. apply sized_len. by apply Hs.
Qed.

(** The turn of a request with messages, up to the answer of the model. *)
Lemma loop_body_answered request s m w response :
  has_sequence_messages request →
  truthy (messages_of request) = true →
  LLMModel.model (self s) = Some m →
  create_chat_completion m (LLMModel.chat_args request) (world s) = (w, Returned response) →
  LLMModel.loop_body request [] s =
    try_except
      (choices ← lift (getitem_str response "choices");
       choice ← lift (getitem_int choices 0);
       message ← lift (getitem_str choice "message");
       content ← lift (get message "content" PyNone);
       tool_calls ← lift (get message "tool_calls" PyNone);
       _ ← lift (LLMModel.len_or_zero content);
       _ ← lift (LLMModel.len_or_zero tool_calls);
       usage ← lift (get response "usage" (PyDict ∅));
       mret ([] ++ [LLMModel.success_result (request_id_of request) content tool_calls usage]))
      (λ e, mret ([] ++ [LLMModel.failure_result (request_id_of request) e]))
      (mkProc (self s) w (trace s ++ [EvChat m (LLMModel.chat_args request) (Returned response)])).
Proof.
  unfold has_sequence_messages, messages_of, request_id_of.
  intros [n Hlen]%sized_len Htruthy Hm Hcall.
  unfold_body. rewrite Hlen, Htruthy. cbn [negb]. cbv beta.
  rewrite Hm, Hcall. reflexivity.
Qed.

End response_facts.

(** X1.  When the model answers a request with a dictionary whose
    [choices] is a list starting with a dictionary that has a [message]
    dictionary, and the message's [content] and [tool_calls] are each
    absent, false-valued or a value with a length, the request succeeds:
    its result carries the [content] and [tool_calls] of that first
    message ([None] when absent) and the [usage] of the response (the
    empty mapping when absent).  Further choices are not looked at. *)
Theorem success_takes_first_choice `{RT : Runtime}
    (request : Dict) (s : Proc LLMModel.t) (m : Llama) (w : World)
    (d choice message : Dict) (others : list PyVal) :
  has_sequence_messages request →
  truthy (messages_of request) = true →
  LLMModel.model (self s) = Some m →
  create_chat_completion m (LLMModel.chat_args request) (world s) = (w, Returned (PyDict d)) →
  d !! "choices" = Some (PyList (PyDict choice :: others)) →
  choice !! "message" = Some (PyDict message) →
  (truthy (default PyNone (message !! "content")) = true →
     sized (default PyNone (message !! "content")) = true) →
  (truthy (default PyNone (message !! "tool_calls")) = true →
     sized (default PyNone (message !! "tool_calls")) = true) →
  produces request s
    {[ "request_id" := request_id_of request;
       "success" := PyBool true;
       "error" := PyNone;
       "content" := default PyNone (message !! "content");
       "tool_calls" := default PyNone (message !! "tool_calls");
       "usage" := default (PyDict ∅) (d !! "usage") ]}
    (mkProc (self s) w
       (trace s ++ [EvChat m (LLMModel.chat_args request) (Returned (PyDict d))])).
Proof.
  intros Hseq Htruthy Hm Hcall Hchoices Hmessage Hcontent Htools.
  unfold produces. rewrite (loop_body_answered _ _ _ _ _ Hseq Htruthy Hm Hcall).
  destruct (len_or_zero_ok _ Hcontent) as [n1 Hn1].
  destruct (len_or_zero_ok _ Htools) as [n2 Hn2].
  unfold try_except, lift, mbind, M_bind, mret, M_ret, getitem_str.
  rewrite Hchoices, getitem_int_first, Hmessage.
  unfold get, dict_get. rewrite Hn1, Hn2. reflexivity.
Qed.

Lemma success_takes_first_choice_witness :
  produces Demo.req_bare Demo.loaded_plain
    {[ "request_id" := request_id_of Demo.req_bare;
       "success" := PyBool true;
       "error" := PyNone;
       "content" := default PyNone (Demo.reply_message !! "content");
       "tool_calls" := default PyNone (Demo.reply_message !! "tool_calls");
       "usage" := default (PyDict ∅) (Demo.reply_fields !! "usage") ]}
    (mkProc (RT:=Demo.plain) (self Demo.loaded_plain) 2%nat
       (trace Demo.loaded_plain ++
          [EvChat (RT:=Demo.plain) "/models/m.gguf" (LLMModel.chat_args Demo.req_bare)
             (Returned (PyDict Demo.reply_fields))])).
Proof.
  apply (success_takes_first_choice (RT:=Demo.plain)
           Demo.req_bare Demo.loaded_plain "/models/m.gguf" 2%nat
           Demo.reply_fields Demo.reply_choice Demo.reply_message []);
    first [reflexivity | discriminate].
Defined.

(** X2.  When the model answers a request with something that is not of
    the expected shape, the request fails and the batch goes on; the error
    is the message of the Python exception met on the way: ['choices'] for
    a dictionary without [choices], [list index out of range] for an empty
    list of choices, ['message'] for a first choice without [message], and
    ['NoneType' object is not subscriptable] for the answer [None]. *)
Theorem malformed_response_fails_request `{RT : Runtime}
    (request : Dict) (s : Proc LLMModel.t) (m : Llama) (w : World) (response : PyVal) :
  has_sequence_messages request →
  truthy (messages_of request) = true →
  LLMModel.model (self s) = Some m →
  create_chat_completion m (LLMModel.chat_args request) (world s) = (w, Returned response) →
  ∃ s',
    s' = mkProc (self s) w
           (trace s ++ [EvChat m (LLMModel.chat_args request) (Returned response)]) ∧
    (∀ d, response = PyDict d → d !! "choices" = None →
       produces request s
         (LLMModel.failure_result (request_id_of request) (KeyError "'choices'")) s') ∧
    (∀ d, response = PyDict d → d !! "choices" = Some (PyList []) →
       produces request s
         (LLMModel.failure_result (request_id_of request)
            (IndexError "list index out of range")) s') ∧
    (∀ d choice others,
       response = PyDict d →
       d !! "choices" = Some (PyList (PyDict choice :: others)) →
       choice !! "message" = None →
       produces request s
         (LLMModel.failure_result (request_id_of request) (KeyError "'message'")) s') ∧
    (response = PyNone →
       produces request s
         (LLMModel.failure_result (request_id_of request)
            (TypeError "'NoneType' object is not subscriptable")) s').
Proof.
  intros Hseq Htruthy Hm Hcall. eexists. split; [reflexivity|].
  unfold produces. rewrite (loop_body_answered _ _ _ _ _ Hseq Htruthy Hm Hcall).
  unfold try_except, lift, mbind, M_bind, mret, M_ret.
  split; [|split; [|split]].
  - intros d -> Hchoices. unfold getitem_str. rewrite Hchoices. reflexivity.
  - intros d -> Hchoices. unfold getitem_str. rewrite Hchoices. reflexivity.
  - intros d choice others -> Hchoices Hmessage. unfold getitem_str.
    rewrite Hchoices, getitem_int_first, Hmessage. reflexivity.
  - intros ->. reflexivity.
Qed.

Lemma malformed_response_fails_request_witness :
  ∃ s',
    s' = mkProc (RT:=Demo.garbled) (self Demo.loaded_garbled) 2%nat
           (trace Demo.loaded_garbled ++
              [EvChat (RT:=Demo.garbled) "/models/m.gguf"
                 (LLMModel.chat_args Demo.req_bare) (Returned (PyDict ∅))]) ∧
    (∀ d, PyDict ∅ = PyDict d → d !! "choices" = None →
       produces Demo.req_bare Demo.loaded_garbled
         (LLMModel.failure_result (request_id_of Demo.req_bare) (KeyError "'choices'")) s') ∧
    (∀ d, PyDict ∅ = PyDict d → d !! "choices" = Some (PyList []) →
       produces Demo.req_bare Demo.loaded_garbled
         (LLMModel.failure_result (request_id_of Demo.req_bare)
            (IndexError "list index out of range")) s') ∧
    (∀ d choice others,
       PyDict ∅ = PyDict d →
       d !! "choices" = Some (PyList (PyDict choice :: others)) →
       choice !! "message" = None →
       produces Demo.req_bare Demo.loaded_garbled
         (LLMModel.failure_result (request_id_of Demo.req_bare) (KeyError "'message'")) s') ∧
    (PyDict ∅ = PyNone →
       produces Demo.req_bare Demo.loaded_garbled
         (LLMModel.failure_result (request_id_of Demo.req_bare)
            (TypeError "'NoneType' object is not subscriptable")) s').
Proof.
  apply (malformed_response_fails_request (RT:=Demo.garbled)
           Demo.req_bare Demo.loaded_garbled "/models/m.gguf" 2%nat (PyDict ∅));
    reflexivity.
Defined.

(** X3.  The log line of a success takes [len(content)] when [content] is
    true-valued.  So when the first message's [content] is true-valued but
    has no length (a number, [True]), the request fails with the
    [TypeError] of [len], although the model answered in the expected
    shape. *)
Theorem unsized_content_fails_request `{RT : Runtime}
    (request : Dict) (s : Proc LLMModel.t) (m : Llama) (w : World)
    (d choice message : Dict) (others : list PyVal) (content : PyVal) :
  has_sequence_messages request →
  truthy (messages_of request) = true →
  LLMModel.model (self s) = Some m →
  create_chat_completion m (LLMModel.chat_args request) (world s) = (w, Returned (PyDict d)) →
  d !! "choices" = Some (PyList (PyDict choice :: others)) →
  choice !! "message" = Some (PyDict message) →
  message !! "content" = Some content →
  truthy content = true →
  sized content = false →
  produces request s
    {[ "request_id" := request_id_of request;
       "success" := PyBool false;
       "error" := PyStr ("object of type '" +:+ type_name content +:+ "' has no len()");
       "content" := PyNone;
       "tool_calls" := PyNone ]}
    (mkProc (self s) w
       (trace s ++ [EvChat m (LLMModel.chat_args request) (Returned (PyDict d))])).
Proof.
  intros Hseq Htruthy Hm Hcall Hchoices Hmessage Hcontent Htrue Hunsized.
  unfold produces. rewrite (loop_body_answered _ _ _ _ _ Hseq Htruthy Hm Hcall).
  unfold try_except, lift, mbind, M_bind, mret, M_ret, getitem_str.
  rewrite Hchoices, getitem_int_first, Hmessage.
  assert (default PyNone (message !! "content") = content) as Hdefault
    by (rewrite Hcontent; reflexivity).
  unfold get, dict_get, LLMModel.len_or_zero.
  rewrite Hdefault, Htrue, (unsized_len _ Hunsized). reflexivity.
Qed.

Lemma unsized_content_fails_request_witness :
  produces Demo.req_bare Demo.loaded_odd
    {[ "request_id" := request_id_of Demo.req_bare;
       "success" := PyBool false;
       "error" := PyStr ("object of type '" +:+ type_name (PyInt 5) +:+ "' has no len()");
       "content" := PyNone;
       "tool_calls" := PyNone ]}
    (mkProc (RT:=Demo.odd) (self Demo.loaded_odd) 2%nat
       (trace Demo.loaded_odd ++
          [EvChat (RT:=Demo.odd) "/models/m.gguf" (LLMModel.chat_args Demo.req_bare)
             (Returned (PyDict Demo.odd_fields))])).
Proof.
  apply (unsized_content_fails_request (RT:=Demo.odd)
           Demo.req_bare Demo.loaded_odd "/models/m.gguf" 2%nat
           Demo.odd_fields Demo.odd_choice Demo.odd_message [] (PyInt 5));
    reflexivity.
Defined.

(* ===================================================================== *)
(** ** The calls a batch makes *)
(* ===================================================================== *)

Section batch_calls.
Context `{RT : Runtime}.
Implicit Types (request : Dict) (requests : list Dict) (s : Proc LLMModel.t).

Lemma for_each_app {S A B} (xs ys : list A) (body : A → B → M S B) acc (st : S) :
  for_each (xs ++ ys) body acc st =
    match for_each xs body acc st with
    | (st', Returned acc') => for_each ys body acc' st'
    | (st', Raised e) => (st', Raised e)
    end.
Proof.
  revert acc st. induction xs as [|x xs IH]; intros acc st; [reflexivity|].
  rewrite <- app_comm_cons, !for_each_cons.
  destruct (body x acc st) as [st' [acc'|e]]; [apply IH | reflexivity].
Qed.

(** The completions of a run are those of its requests with messages, in
    order, all asked of the model the object holds. *)
Lemma batch_run_chats requests s results s' m :
  batch_run requests s results s' →
  LLMModel.model (self s) = Some m →
  ∃ evs,
    trace s' = trace s ++ evs ∧ chats_of m evs ∧
    chat_arguments evs = LLMModel.chat_args <$> with_messages requests.
Proof.
  induction 1 as [s|request requests s res s1 results s2 Hp Hrun IH]; intros Hm.
  - exists []. rewrite app_nil_r. repeat split. constructor.
  - assert (LLMModel.model (self s1) = Some m) as Hm1
      by (rewrite (produces_self _ _ _ _ Hp); exact Hm).
    destruct (IH Hm1) as (evs & Htrace & Hchats & Hargs).
    apply produces_inv in Hp
      as (_ & [(Hempty & _ & Hs1) | [(_ & Hnone & _) | (Hfull & m' & out & Hm' & _ & Hs1 & _)]]);
      [subst s1 | congruence | rewrite Hs1 in Htrace].
    + exists evs. unfold with_messages. cbn [List.filter]. rewrite Hempty.
      repeat split; assumption.
    + assert (m' = m) as -> by congruence.
      exists (EvChat m (LLMModel.chat_args request) out :: evs).
      cbn [trace] in Htrace. rewrite Htrace, <- app_assoc.
      unfold with_messages. cbn [List.filter]. rewrite Hfull.
      split; [reflexivity|]. split; [constructor; eauto|].
      cbn. f_equal. exact Hargs.
Qed.

End batch_calls.

(** X4.  A call that returns asked the model once for each request with
    messages and for no other: after the load, the trace grew by
    completions only, all asked of the model the object holds, and their
    arguments are those of the requests with messages, in the order of
    the batch. *)
Theorem completions_follow_submission_order `{RT : Runtime}
    (requests : list Dict) (s s2 : Proc LLMModel.t) (results : list Dict) :
  LLMModel.__call__ requests s = (s2, Returned results) →
  ∃ s1 m evs,
    LLMModel.start s = (s1, Returned tt) ∧
    LLMModel.model (self s1) = Some m ∧
    trace s2 = trace s1 ++ evs ∧
    chats_of m evs ∧
    chat_arguments evs = LLMModel.chat_args <$> with_messages requests.
Proof.
  intros (s1 & Hstart & Hrun)%call_inv.
  destruct (start_returns_model s s1 Hstart) as [m Hm].
  destruct (batch_run_chats _ _ _ _ _ Hrun Hm) as (evs & Htrace & Hchats & Hargs).
  exists s1, m, evs. eauto.
Qed.

Lemma completions_follow_submission_order_witness :
  ∃ s1 m evs,
    LLMModel.start Demo.unloaded = (s1, Returned tt) ∧
    LLMModel.model (self s1) = Some m ∧
    trace (LLMModel.__call__ Demo.batch Demo.unloaded).1 = trace s1 ++ evs ∧
    chats_of m evs ∧
    chat_arguments evs = LLMModel.chat_args <$> with_messages Demo.batch.
Proof.
  apply (completions_follow_submission_order Demo.batch Demo.unloaded
           (LLMModel.__call__ Demo.batch Demo.unloaded).1
           (match (LLMModel.__call__ Demo.batch Demo.unloaded).2 with
            | Returned results => results
            | Raised _ => []
            end)).
  reflexivity.
Defined.

(** X5.  A request whose [messages] has no length ([None], a number, a
    boolean) ends the whole call with the [TypeError] of [len]: with
    completions that raise instances of [Exception] only, the requests
    before it were served, the model was asked for them, yet
    their results are not returned, and the requests after it are not
    looked at. *)
Theorem untyped_request_ends_call `{RT : Runtime}
    (before : list Dict) (request : Dict) (after : list Dict) (s s1 : Proc LLMModel.t) :
  completions_raise_Exception →
  LLMModel.start s = (s1, Returned tt) →
  Forall has_sequence_messages before →
  sized (messages_of request) = false →
  ∃ results sa,
    batch_run before s1 results sa ∧
    length results = length before ∧
    LLMModel.__call__ (before ++ request :: after) s =
      (sa, Raised (TypeError ("object of type '" +:+ type_name (messages_of request)
                                +:+ "' has no len()"))).
Proof.
  intros Hrt Hstart Hall Hunsized.
  destruct (for_each_total before [] s1 Hrt Hall) as (results & sa & Hloop & Hrun).
  exists results, sa. split; [exact Hrun|]. split; [eauto using batch_run_length|].
  rewrite call_unfold, Hstart, for_each_app, Hloop, for_each_cons.
  rewrite (loop_body_untyped _ _ _ _ (unsized_len _ Hunsized)). reflexivity.
Qed.

Lemma untyped_request_ends_call_witness :
  ∃ results sa,
    batch_run [Demo.req_a; Demo.req_fail] Demo.loaded results sa ∧
    length results = length [Demo.req_a; Demo.req_fail] ∧
    LLMModel.__call__ ([Demo.req_a; Demo.req_fail] ++ Demo.req_untyped :: [Demo.req_bare])
      Demo.unloaded =
      (sa, Raised (TypeError ("object of type '" +:+ type_name (messages_of Demo.req_untyped)
                                +:+ "' has no len()"))).
Proof.
  apply (untyped_request_ends_call [Demo.req_a; Demo.req_fail] Demo.req_untyped
           [Demo.req_bare] Demo.unloaded Demo.loaded).
  - exact healthy_raises_Exception.
  - reflexivity.
  - repeat constructor.
  - reflexivity.
Defined.

(** X6.  The thread count is read from the environment only to load.  On
    an object without a model, a setting that [int] refuses makes [start]
    raise that error with nothing changed and no load attempted, and every
    call on the object, whatever its batch, raises it the same way. *)
Theorem bad_thread_setting_stops_before_load `{RT : Runtime}
    (s : Proc LLMModel.t) (e : exn) :
  LLMModel.model (self s) = None →
  int_of_str (default "4" (environ_get (world s) "LLAMA_N_THREADS")) = Raised e →
  LLMModel.start s = (s, Raised e) ∧
  ∀ requests, LLMModel.__call__ requests s = (s, Raised e).
Proof.
  intros Hm He.
  assert (LLMModel.start s = (s, Raised e)) as Hstart.
  { unfold LLMModel.start. unfold_body. rewrite Hm, He. reflexivity. }
  split; [exact Hstart|]. intros requests. exact (call_start_raised requests _ _ _ Hstart).
Qed.

Lemma bad_thread_setting_stops_before_load_witness :
  LLMModel.start Demo.misset_process =
    (Demo.misset_process,
     Raised (Exception "ValueError" "invalid literal for int() with base 10: 'many'")) ∧
  ∀ requests,
    LLMModel.__call__ requests Demo.misset_process =
      (Demo.misset_process,
       Raised (Exception "ValueError" "invalid literal for int() with base 10: 'many'")).
Proof.
  apply (bad_thread_setting_stops_before_load (RT:=Demo.misset)); reflexivity.
Defined.

(** X7.  A call on an object without a model, when the thread count
    reads as a number, attempts exactly one load, whatever its batch.  If
    the load gives a model the object holds it afterwards; if the load
    raises, the call ends with that exception and the object is as it
    was, so the next call attempts the load again. *)
Theorem unloaded_call_attempts_one_load `{RT : Runtime}
    (requests : list Dict) (s : Proc LLMModel.t) (n : Z) :
  LLMModel.model (self s) = None →
  int_of_str (default "4" (environ_get (world s) "LLAMA_N_THREADS")) = Returned n →
  ∃ w r,
    Llama_new (load_args (self s) n) (world s) = (w, r) ∧
    load_attempts (trace (LLMModel.__call__ requests s).1) = S (load_attempts (trace s)) ∧
    match r with
    | Returned m =>
        self (LLMModel.__call__ requests s).1 = LLMModel.with_model (self s) (Some m)
    | Raised e =>
        LLMModel.__call__ requests s =
          (mkProc (self s) w (trace s ++ [EvLoad (load_args (self s) n) (Raised e)]),
           Raised e)
    end.
Proof.
  intros Hm Hn. rewrite call_unfold.
  destruct (LLMModel.start s) as [s1 o] eqn:Hstart.
  apply start_inv in Hstart
    as [(m & Hm' & _) | [(_ & e & He & _) | (_ & n' & w & r & Hn' & Hnew & Hr)]];
    [congruence | unfold threads_setting in He; congruence |].
  unfold threads_setting in Hn'. assert (n' = n) as -> by congruence.
  exists w, r. split; [exact Hnew|].
  destruct r as [m|e]; cbn in Hr; destruct Hr as [-> ->].
  - destruct (for_each_state requests []
                (mkProc (LLMModel.with_model (self s) (Some m)) w
                   (trace s ++ [EvLoad (load_args (self s) n) (Returned m)])))
      as (Hself & _ & Hattempts & _).
    rewrite Hself, Hattempts. cbn [self trace].
    rewrite load_attempts_app. cbn. split; [lia | reflexivity].
  - cbn [fst trace]. rewrite load_attempts_app. cbn. split; [lia | reflexivity].
Qed.

Lemma unloaded_call_attempts_one_load_witness :
  ∃ w r,
    Llama_new (load_args (self Demo.broken_process) 4) (world Demo.broken_process) = (w, r) ∧
    load_attempts (trace (LLMModel.__call__ Demo.batch Demo.broken_process).1)
      = S (load_attempts (trace Demo.broken_process)) ∧
    match r with
    | Returned m =>
        self (LLMModel.__call__ Demo.batch Demo.broken_process).1
          = LLMModel.with_model (self Demo.broken_process) (Some m)
    | Raised e =>
        LLMModel.__call__ Demo.batch Demo.broken_process =
          (mkProc (self Demo.broken_process) w
             (trace Demo.broken_process ++
                [EvLoad (load_args (self Demo.broken_process) 4) (Raised e)]),
           Raised e)
    end.
Proof.
  apply (unloaded_call_attempts_one_load (RT:=Demo.broken)); reflexivity.
Defined.

(* ===================================================================== *)
(** ** The service around the model *)
(* ===================================================================== *)

Section service_call_facts.
Context `{RT : Runtime}.

(** The first thing a call on an object without a model adds to the trace
    is the load. *)
Lemma call_trace_starts_with_load requests (s : Proc LLMModel.t) n :
  LLMModel.model (self s) = None →
  int_of_str (threads_setting (world s)) = Returned n →
  ∃ r rest,
    trace (LLMModel.__call__ requests s).1 =
      trace s ++ EvLoad (load_args (self s) n) r :: rest.
Proof.
  intros Hm Hn. rewrite call_unfold.
  destruct (LLMModel.start s) as [s1 o] eqn:Hstart.
  apply start_inv in Hstart
    as [(m & Hm' & _) | [(_ & e & He & _) | (_ & n' & w & r & Hn' & _ & Hr)]];
    [congruence | congruence |].
  assert (n' = n) as -> by congruence.
  exists r. destruct r as [m|e]; cbn in Hr; destruct Hr as [-> ->].
  - destruct (for_each_trace_prefix requests []
                (mkProc (LLMModel.with_model (self s) (Some m)) w
                   (trace s ++ [EvLoad (load_args (self s) n) (Returned m)])))
      as [rest ->].
    exists rest. cbn [trace]. rewrite <- app_assoc. reflexivity.
  - exists []. reflexivity.
Qed.

Lemma model_view_reconfigure user_config (s : Proc LLMService.t) :
  model_view (LLMService.reconfigure user_config s).1 = model_view s.
Proof. reflexivity. Qed.

End service_call_facts.

(** X8.  When the model of a service is held or loads, and completions
    raise instances of [Exception] only, the service's call on a batch of requests of the data model returns what the model
    object's call returns, one result per request, and leaves the model
    object holding a model; the stored [max_batch_size] and
    [batch_wait_timeout_s] are not touched. *)
Theorem service_serves_batch `{RT : Runtime}
    (requests : list Dict) (s : Proc LLMService.t) (s1 : Proc LLMModel.t) :
  completions_raise_Exception →
  LLMModel.start (model_view s) = (s1, Returned tt) →
  Forall has_sequence_messages requests →
  ∃ results s2,
    LLMService.__call__ requests s = (s2, Returned results) ∧
    LLMModel.__call__ requests (model_view s) = (model_view s2, Returned results) ∧
    batch_run requests s1 results (model_view s2) ∧
    length results = length requests ∧
    (∃ m, LLMModel.model (LLMService.model (self s2)) = Some m) ∧
    LLMService.max_batch_size (self s2) = LLMService.max_batch_size (self s) ∧
    LLMService.batch_wait_timeout_s (self s2) = LLMService.batch_wait_timeout_s (self s).
Proof.
  intros Hrt Hstart Hall.
  destruct (call_total requests _ s1 Hrt Hstart Hall) as (results & sm & Hcall & Hrun).
  destruct (start_returns_model _ s1 Hstart) as [m Hm].
  exists results,
    (mkProc (LLMService.with_model (self s) (self sm)) (world sm) (trace sm)).
  assert (model_view
            (mkProc (LLMService.with_model (self s) (self sm)) (world sm) (trace sm)) = sm)
    as Hview by (destruct sm; reflexivity).
  rewrite Hview.
  split; [rewrite service_call_unfold, Hcall; reflexivity|].
  split; [exact Hcall|]. split; [exact Hrun|]. split; [eauto using batch_run_length|].
  split; [|split; reflexivity].
  exists m. cbn. rewrite (batch_run_self _ _ _ _ Hrun). exact Hm.
Qed.

Lemma service_serves_batch_witness :
  ∃ results s2,
    LLMService.__call__ Demo.batch Demo.service = (s2, Returned results) ∧
    LLMModel.__call__ Demo.batch (model_view Demo.service)
      = (model_view s2, Returned results) ∧
    batch_run Demo.batch Demo.loaded results (model_view s2) ∧
    length results = length Demo.batch ∧
    (∃ m, LLMModel.model (LLMService.model (self s2)) = Some m) ∧
    LLMService.max_batch_size (self s2) = LLMService.max_batch_size (self Demo.service) ∧
    LLMService.batch_wait_timeout_s (self s2)
      = LLMService.batch_wait_timeout_s (self Demo.service).
Proof.
  apply (service_serves_batch Demo.batch Demo.service Demo.loaded).
  - exact healthy_raises_Exception.
  - reflexivity.
  - repeat constructor.
Defined.

(** X9.  A service built with a path, a context size and a layer count
    loads nothing when built, and the first thing its first call does,
    when the thread count reads as the number [n], is to load with exactly
    that path, context size and layer count, [n] threads and
    [verbose=False]. *)
Theorem service_loads_with_constructor_arguments `{RT : Runtime}
    (path : string) (ctx gpu : Z) (w : World) (requests : list Dict) (n : Z) :
  int_of_str (default "4" (environ_get w "LLAMA_N_THREADS")) = Returned n →
  trace (mkProc (LLMService.__init__ path ctx gpu) w []) = [] ∧
  ∃ r rest,
    trace (LLMService.__call__ requests (mkProc (LLMService.__init__ path ctx gpu) w [])).1 =
      EvLoad {| arg_model_path := path;
                arg_n_ctx := ctx;
                arg_n_gpu_layers := gpu;
                arg_n_threads := n;
                arg_verbose := false |} r :: rest.
Proof.
  intros Hn. split; [reflexivity|].
  rewrite service_call_unfold. cbn [fst trace].
  destruct (call_trace_starts_with_load requests
              (model_view (mkProc (LLMService.__init__ path ctx gpu) w [])) n)
    as (r & rest & Htrace); [reflexivity | exact Hn |].
  exists r, rest. rewrite Htrace. reflexivity.
Qed.

Lemma service_loads_with_constructor_arguments_witness :
  trace Demo.service = [] ∧
  ∃ r rest,
    trace (LLMService.__call__ Demo.batch Demo.service).1 =
      EvLoad (RT:=Demo.healthy)
        {| arg_model_path := "/models/m.gguf";
           arg_n_ctx := 8192;
           arg_n_gpu_layers := 0;
           arg_n_threads := 4;
           arg_verbose := false |} r :: rest.
Proof.
  apply (service_loads_with_constructor_arguments (RT:=Demo.healthy)
           "/models/m.gguf" 8192 0 0%nat Demo.batch 4).
  reflexivity.
Defined.

(** X10.  [reconfigure] never returns: the setters are looked up on the
    model object's [__call__], which has none, so every call ends with an
    [AttributeError], whatever the mapping.  The failed call harms
    nothing else: world, trace and model object are as before, and a batch
    served afterwards gets the results, and leaves the model object in the
    state, it would have without the reconfiguration. *)
Theorem reconfigure_fails_and_serving_goes_on `{RT : Runtime}
    (user_config : Dict) (s : Proc LLMService.t) :
  (LLMService.reconfigure user_config s).2
    = Raised (AttributeError "'function' object has no attribute 'set_max_batch_size'") ∧
  world (LLMService.reconfigure user_config s).1 = world s ∧
  trace (LLMService.reconfigure user_config s).1 = trace s ∧
  ∀ requests,
    (LLMService.__call__ requests (LLMService.reconfigure user_config s).1).2
      = (LLMService.__call__ requests s).2 ∧
    model_view (LLMService.__call__ requests (LLMService.reconfigure user_config s).1).1
      = model_view (LLMService.__call__ requests s).1.
Proof.
  split; [reflexivity|]. split; [reflexivity|]. split; [reflexivity|].
  intros requests. rewrite !service_call_unfold, model_view_reconfigure.
  split; reflexivity.
Qed.

Section success_facts.
Context `{RT : Runtime}.

(** An index into a string gives a string. *)
Lemma getitem_int_str s i x : getitem_int (PyStr s) i = Returned x → ∃ c, x = PyStr c.
Proof.
  unfold getitem_int. destruct (index_in _ _ ≫= _); [|discriminate].
  intros [= <-]. eauto.
Qed.

End success_facts.

(** Close a case in which the turn ended with a failure result although
    [success=True] was read from it. *)
Ltac not_a_success Hp Hok :=
  try match type of Hp with
      | context [is_Exception ?e] => is_var e; destruct (is_Exception e)
      end;
  first [discriminate Hp | injection Hp as _ Hp; subst; discriminate Hok].

(** X11.  A result with [success=True] is always made from a response of
    the expected shape: the request had messages, the model answered it
    with a dictionary whose [choices] is a list starting with a dictionary
    that has a [message] dictionary, and the result's [content] and
    [tool_calls] are those of that message ([None] when absent). *)
Theorem success_comes_from_first_choice `{RT : Runtime}
    (request : Dict) (s s' : Proc LLMModel.t) (res : Dict) :
  produces request s res s' →
  res !! "success" = Some (PyBool true) →
  truthy (messages_of request) = true ∧
  ∃ m d choice others message,
    LLMModel.model (self s) = Some m ∧
    create_chat_completion m (LLMModel.chat_args request) (world s)
      = (world s', Returned (PyDict d)) ∧
    d !! "choices" = Some (PyList (PyDict choice :: others)) ∧
    choice !! "message" = Some (PyDict message) ∧
    res !! "content" = Some (default PyNone (message !! "content")) ∧
    res !! "tool_calls" = Some (default PyNone (message !! "tool_calls")).
Proof.
  intros Hp Hok.
  pose proof Hp as
    (Hseq & [(_ & -> & _) | [(_ & _ & _ & e & ->) | (Htruthy & m & out & Hm & Hcall & _ & Hout)]])%produces_inv;
    [discriminate Hok | discriminate Hok |].
  split; [exact Htruthy|].
  destruct out as [response|e]; [|subst res; discriminate Hok].
  clear Hout. unfold produces in Hp.
  rewrite (loop_body_answered _ _ _ _ _ Hseq Htruthy Hm Hcall) in Hp.
  unfold try_except, lift, mbind, M_bind, mret, M_ret in Hp.
  destruct response as [| | | | |l|d]; try (cbn in Hp; not_a_success Hp Hok).
  unfold getitem_str at 1 in Hp.
  destruct (d !! "choices") as [choices|] eqn:Hchoices; [|not_a_success Hp Hok].
  destruct choices as [| | | |text|l|d']; try (cbn in Hp; not_a_success Hp Hok).
  - destruct (getitem_int (PyStr text) 0) as [x|e] eqn:Hx; [|not_a_success Hp Hok].
    apply getitem_int_str in Hx as [c ->]. cbn in Hp. not_a_success Hp Hok.
  - destruct l as [|first others]; [cbn in Hp; not_a_success Hp Hok|].
    rewrite getitem_int_first in Hp.
    destruct first as [| | | | | |choice]; try (cbn in Hp; not_a_success Hp Hok).
    unfold getitem_str in Hp.
    destruct (choice !! "message") as [message|] eqn:Hmessage; [|not_a_success Hp Hok].
    destruct message as [| | | | | |message]; try (cbn in Hp; not_a_success Hp Hok).
    unfold get, dict_get in Hp.
    destruct (LLMModel.len_or_zero (default PyNone (message !! "content")));
      [|not_a_success Hp Hok].
    destruct (LLMModel.len_or_zero (default PyNone (message !! "tool_calls")));
      [|not_a_success Hp Hok].
    injection Hp as _ <-.
    exists m, d, choice, others, message.
    repeat (split; [assumption || reflexivity|]). reflexivity.
Qed.

Lemma success_comes_from_first_choice_witness :
  truthy (messages_of Demo.req_bare) = true ∧
  ∃ m d choice others message,
    LLMModel.model (self Demo.loaded_plain) = Some m ∧
    create_chat_completion m (LLMModel.chat_args Demo.req_bare) (world Demo.loaded_plain)
      = (world (LLMModel.loop_body Demo.req_bare [] Demo.loaded_plain).1,
         Returned (PyDict d)) ∧
    d !! "choices" = Some (PyList (PyDict choice :: others)) ∧
    choice !! "message" = Some (PyDict message) ∧
    LLMModel.success_result (request_id_of Demo.req_bare)
      (PyStr "hello") PyNone (PyDict {[ "total_tokens" := PyInt 7 ]}) !! "content"
      = Some (default PyNone (message !! "content")) ∧
    LLMModel.success_result (request_id_of Demo.req_bare)
      (PyStr "hello") PyNone (PyDict {[ "total_tokens" := PyInt 7 ]}) !! "tool_calls"
      = Some (default PyNone (message !! "tool_calls")).
Proof.
  apply (success_comes_from_first_choice (RT:=Demo.plain) Demo.req_bare Demo.loaded_plain
           (LLMModel.loop_body Demo.req_bare [] Demo.loaded_plain).1).
  - reflexivity.
  - reflexivity.
Defined.


(* ===================================================================== *)
(** ** What [except Exception] lets through *)
(* ===================================================================== *)

Section uncaught_facts.
Context `{RT : Runtime}.

(** The loop, run over requests that were served, gives their results. *)
Lemma for_each_batch_run (requests : list Dict) (s s' : Proc LLMModel.t) results acc :
  batch_run requests s results s' →
  for_each requests LLMModel.loop_body acc s = (s', Returned (acc ++ results)).
Proof.
  intros Hrun. revert acc.
  induction Hrun as [s|request requests s res s1 results s2 Hp _ IH]; intros acc.
  - cbn. rewrite app_nil_r. reflexivity.
  - rewrite for_each_cons, loop_body_acc. unfold produces in Hp. rewrite Hp.
    rewrite IH, <- app_assoc. reflexivity.
Qed.

End uncaught_facts.

(** X12.  An exception that is no instance of [Exception]
    ([KeyboardInterrupt], [SystemExit], a cancellation), raised by the
    model during the completion of a request, is not caught: it ends the
    whole call.  The requests before it were served, yet their results
    are not returned, and the requests after it are not looked at. *)
Theorem uncaught_exception_ends_call `{RT : Runtime}
    (before : list Dict) (request : Dict) (after : list Dict)
    (s s1 sa : Proc LLMModel.t) (results : list Dict) (m : Llama) (w : World) (e : exn) :
  LLMModel.start s = (s1, Returned tt) →
  batch_run before s1 results sa →
  has_sequence_messages request →
  truthy (messages_of request) = true →
  LLMModel.model (self sa) = Some m →
  create_chat_completion m (LLMModel.chat_args request) (world sa) = (w, Raised e) →
  is_Exception e = false →
  LLMModel.__call__ (before ++ request :: after) s =
    (mkProc (self sa) w
       (trace sa ++ [EvChat m (LLMModel.chat_args request) (Raised e)]),
     Raised e).
Proof.
  unfold has_sequence_messages, messages_of.
  intros Hstart Hrun [n Hlen]%sized_len Htruthy Hm Hcall Huncaught.
  rewrite call_unfold, Hstart, for_each_app, (for_each_batch_run _ _ _ _ _ Hrun).
  rewrite for_each_cons.
  unfold_body. rewrite Hlen, Htruthy. cbn [negb]. cbv beta.
  rewrite Hm, Hcall. cbn [self world trace]. rewrite Huncaught. reflexivity.
Qed.

Lemma uncaught_exception_ends_call_witness :
  LLMModel.__call__ ([Demo.req_a] ++ Demo.req_fail :: [Demo.req_bare])
    Demo.interrupted_process =
    (mkProc (RT:=Demo.interrupted)
       (self (LLMModel.__call__ [Demo.req_a] Demo.interrupted_process).1) 3%nat
       (trace (LLMModel.__call__ [Demo.req_a] Demo.interrupted_process).1 ++
          [EvChat (RT:=Demo.interrupted) "/models/m.gguf"
             (LLMModel.chat_args Demo.req_fail) (Raised KeyboardInterrupt)]),
     Raised KeyboardInterrupt).
Proof.
  apply (uncaught_exception_ends_call (RT:=Demo.interrupted)
           [Demo.req_a] Demo.req_fail [Demo.req_bare]
           Demo.interrupted_process
           (LLMModel.start Demo.interrupted_process).1
           (LLMModel.__call__ [Demo.req_a] Demo.interrupted_process).1
           [LLMModel.success_result (PyStr "a") (PyStr "hello") PyNone
              (PyDict {[ "total_tokens" := PyInt 7 ]})]).
  - reflexivity.
  - apply (batch_turn _ _ _ _ (LLMModel.__call__ [Demo.req_a] Demo.interrupted_process).1);
      [reflexivity | apply batch_done].
  - reflexivity.
  - reflexivity.
  - reflexivity.
  - reflexivity.
  - reflexivity.
Defined.
